(** * Folder curation: the approval workflow of the curation plugin

    A shallow embedding of [plugins/curation/server/__init__.py]: the
    [CuratedFolder] REST resource with its two routes, [getCuration] (GET) and
    [setCuration] (PUT), and the helpers [_makeReadOnly], [_makeWriteable],
    [_addTimeline], [_getEmail] and [_sendMail].

    Python dictionaries with a fixed set of keys are records; a key that may be
    missing is an [option] field.  The handlers mutate the loaded folder
    document in place, raise exceptions and send mail, so they are written in
    a small reader/state/exception monad over the request's environment (the
    current user, the clock, the user collection) and its world (the loaded
    document, the stored document, the outbox). *)

From Stdlib Require Import String List Bool NArith Lia.
Import ListNotations.
Local Open Scope string_scope.
Local Open Scope bool_scope.

(** ** Constants of the module *)

Definition ENABLED := "enabled".
Definition STATUS := "status".
Definition TIMELINE := "timeline".
Definition ENABLE_USER_ID := "enableUserId".
Definition REQUEST_USER_ID := "requestUserId".
Definition REVIEW_USER_ID := "reviewUserId".

Definition CONSTRUCTION := "construction".
Definition REQUESTED := "requested".
Definition APPROVED := "approved".

(** ** Data *)

(** A MongoDB [ObjectId]; such a value is never falsy. *)
Definition ObjectId := N.

(** A reading of [datetime.datetime.utcnow()]. *)
Definition datetime := N.

(** Modelled from the spec: [girder.constants.AccessType] is imported, not
    defined, by the plugin; the spec gives the four levels
    [{None, Read, Write, Admin}]. *)
Inductive AccessType := NONE | READ | WRITE | ADMIN.

Definition AccessType_eqb (a b : AccessType) : bool :=
  match a, b with
  | NONE, NONE | READ, READ | WRITE, WRITE | ADMIN, ADMIN => true
  | _, _ => false
  end.

(** One entry of [folder['access']['users']] or [folder['access']['groups']]. *)
Record AccessDoc := mkAccessDoc { id : ObjectId; level : AccessType }.

Record AccessList := mkAccessList
  { users : list AccessDoc; groups : list AccessDoc }.

(** The dictionary built by [_addTimeline]. *)
Record TimelineEntry := mkEntry
  { e_userId : ObjectId;
    e_userLogin : string;
    e_text : string;
    e_oldEnabled : bool;
    e_oldStatus : string;
    e_enabled : bool;
    e_status : string;
    e_timestamp : datetime }.

(** The [folder['curation']] dictionary.  Every key may be missing. *)
Record Curation := mkCuration
  { c_enabled : option bool;
    c_status : option string;
    c_timeline : option (list TimelineEntry);
    c_enableUserId : option ObjectId;
    c_requestUserId : option ObjectId;
    c_reviewUserId : option ObjectId }.

(** The folder document, as far as the plugin touches it. *)
Record Folder := mkFolder
  { name : string;
    public : bool;
    access : AccessList;
    curation : option Curation }.

(** A user document: the one [getCurrentUser()] returns, or one that
    [self.model('user').load] finds.  [.get('email')] gives [None] when the
    document has no address. *)
Record User := mkUser
  { u_id : ObjectId; u_login : string; u_admin : bool; u_email : option string }.

(** The request parameters.  Modelled from the spec: [boolParam] belongs to
    girder's [Resource]; the spec gives the requested [enabled] as an optional
    boolean, so [p_enabled] is [boolParam(ENABLED, params)] when the key is
    there. *)
Record Params := mkParams
  { p_enabled : option bool; p_status : option string }.

(** What [_sendMail] hands to [mail_utils.sendEmail]: the addresses, the
    subject and the template that is rendered. *)
Record Mail := mkMail
  { m_emails : list (option string); m_subject : string; m_template : string }.

Inductive Exn :=
| AccessException   (* raised by requireAdmin *)
| KeyError (key : string)   (* d[key] on a missing key *)
| AttributeError.   (* .get on None: no current user, no such user document *)

(** ** Dictionary operations on [Curation] *)

Definition empty_dict : Curation := mkCuration None None None None None None.

(** [DEFAULTS = {ENABLED: False, STATUS: CONSTRUCTION}] *)
Definition DEFAULTS : Curation :=
  mkCuration (Some false) (Some CONSTRUCTION) None None None None.

Definition set_enabled (b : bool) (c : Curation) : Curation :=
  mkCuration (Some b) (c_status c) (c_timeline c)
    (c_enableUserId c) (c_requestUserId c) (c_reviewUserId c).

Definition set_status (s : string) (c : Curation) : Curation :=
  mkCuration (c_enabled c) (Some s) (c_timeline c)
    (c_enableUserId c) (c_requestUserId c) (c_reviewUserId c).

Definition set_timeline (t : list TimelineEntry) (c : Curation) : Curation :=
  mkCuration (c_enabled c) (c_status c) (Some t)
    (c_enableUserId c) (c_requestUserId c) (c_reviewUserId c).

Definition set_enableUserId (u : ObjectId) (c : Curation) : Curation :=
  mkCuration (c_enabled c) (c_status c) (c_timeline c)
    (Some u) (c_requestUserId c) (c_reviewUserId c).

Definition set_requestUserId (u : ObjectId) (c : Curation) : Curation :=
  mkCuration (c_enabled c) (c_status c) (c_timeline c)
    (c_enableUserId c) (Some u) (c_reviewUserId c).

Definition set_reviewUserId (u : ObjectId) (c : Curation) : Curation :=
  mkCuration (c_enabled c) (c_status c) (c_timeline c)
    (c_enableUserId c) (c_requestUserId c) (Some u).

(** [d.get(key, default)] on one key. *)
Definition get {A} (field : option A) (default : A) : A :=
  match field with Some v => v | None => default end.

(** One key of [base.update(over)]: the value of [over] when it has the key. *)
Definition over_key {A} (over base : option A) : option A :=
  match over with Some v => Some v | None => base end.

(** [base.update(over)], key by key. *)
Definition update (base over : Curation) : Curation :=
  mkCuration
    (over_key (c_enabled over) (c_enabled base))
    (over_key (c_status over) (c_status base))
    (over_key (c_timeline over) (c_timeline base))
    (over_key (c_enableUserId over) (c_enableUserId base))
    (over_key (c_requestUserId over) (c_requestUserId base))
    (over_key (c_reviewUserId over) (c_reviewUserId base)).

(** [curation.setdefault(TIMELINE, []).append(data)] *)
Definition append_timeline (data : TimelineEntry) (c : Curation) : Curation :=
  set_timeline (get (c_timeline c) [] ++ [data]) c.

(** [x == s] for [x = d.get(key)]: a missing key gives [None], equal to no
    string. *)
Definition is_status (x : option string) (s : string) : bool :=
  match x with Some v => String.eqb v s | None => false end.

Definition set_public (b : bool) (f : Folder) : Folder :=
  mkFolder (name f) b (access f) (curation f).

Definition set_access (a : AccessList) (f : Folder) : Folder :=
  mkFolder (name f) (public f) a (curation f).

Definition set_curation (c : Curation) (f : Folder) : Folder :=
  mkFolder (name f) (public f) (access f) (Some c).

(** ** The read route *)

(** [getCuration]: a copy of [DEFAULTS] with an empty timeline, updated with
    the stored dictionary ([{}] when the folder has none). *)
Definition getCuration (folder : Folder) : Curation :=
  let result := DEFAULTS in
  let result := set_timeline [] result in
  update result (get (curation folder) empty_dict).

(** ** The request monad *)

(** What a request reads: the current user ([None] for a caller who is not
    logged in: both routes are [access.public]), the clock, whose [k]-th
    reading during the request is [utcnow k], and the documents of the user
    collection other than the current user's. *)
Record Env := mkEnv
  { user : option User;
    utcnow : nat -> datetime;
    accounts : ObjectId -> option User }.

(** Modelled from the spec: the user collection belongs to girder; the spec's
    identity provider supplies the current principal and the lookup by
    principal id.  [self.model('user').load(userId, force=True)] gives the
    document with that id, [None] when there is none; the current user's own
    id loads the current user's document. *)
Definition load_user (e : Env) (userId : ObjectId) : option User :=
  match user e with
  | Some u => if N.eqb (u_id u) userId then Some u else accounts e userId
  | None => accounts e userId
  end.

(** The [isAdmin] capability of the caller; a caller who is not logged in has
    none. *)
Definition is_admin (u : option User) : bool :=
  match u with Some x => u_admin x | None => false end.

(** What a request changes: the folder document loaded for it ([doc]), the
    document in the database ([stored]), the mail sent so far and the number
    of clock readings. *)
Record World := mkWorld
  { doc : Folder; stored : Folder; outbox : list Mail; ticks : nat }.

Inductive Result (A : Type) :=
| Ok (a : A)
| Raise (e : Exn).
Arguments Ok {A} a.
Arguments Raise {A} e.

Definition M (A : Type) : Type := Env -> World -> Result A * World.

Definition ret {A} (a : A) : M A := fun _ w => (Ok a, w).

Definition bind {A B} (m : M A) (k : A -> M B) : M B :=
  fun e w =>
    match m e w with
    | (Ok a, w') => k a e w'
    | (Raise x, w') => (Raise x, w')
    end.

Definition raise {A} (x : Exn) : M A := fun _ w => (Raise x, w).

Declare Scope req_scope.
Delimit Scope req_scope with req.
Notation "x <- m ;; k" := (bind m (fun x => k))
  (at level 61, m at next level, right associativity) : req_scope.
Notation "m ;; k" := (bind m (fun _ => k))
  (at level 61, right associativity) : req_scope.
Local Open Scope req_scope.

Definition when (b : bool) (m : M unit) : M unit := if b then m else ret tt.

Definition getCurrentUser : M (option User) := fun e w => (Ok (user e), w).

(** [user.get(key)]: [AttributeError] when [user] is [None]. *)
Definition user_get {A} (field : User -> A) (u : option User) : M A :=
  match u with Some x => ret (field x) | None => raise AttributeError end.

Definition folder : M Folder := fun _ w => (Ok (doc w), w).

Definition modify_folder (f : Folder -> Folder) : M unit :=
  fun _ w => (Ok tt, mkWorld (f (doc w)) (stored w) (outbox w) (ticks w)).

(** [d[key]]: [KeyError] when the key is missing. *)
Definition getitem {A} (key : string) (field : option A) : M A :=
  match field with Some v => ret v | None => raise (KeyError key) end.

(** [folder[CURATION]], the dictionary every alias in [setCuration] points to. *)
Definition the_curation : M Curation :=
  f <- folder ;; getitem "curation" (curation f).

(** An in-place change of [folder[CURATION]]. *)
Definition modify_curation (g : Curation -> Curation) : M unit :=
  c <- the_curation ;; modify_folder (set_curation (g c)).

Definition now : M datetime :=
  fun e w => (Ok (utcnow e (ticks w)),
              mkWorld (doc w) (stored w) (outbox w) (S (ticks w))).

Definition sendEmail (m : Mail) : M unit :=
  fun _ w => (Ok tt, mkWorld (doc w) (stored w) (outbox w ++ [m]) (ticks w)).

(** [self.model('folder').save(folder)] *)
Definition save : M unit :=
  fun _ w => (Ok tt, mkWorld (doc w) (doc w) (outbox w) (ticks w)).

(** Modelled from the spec: [requireAdmin] belongs to girder's [Resource]; the
    spec has it fail with PermissionDenied (girder's [AccessException]) unless
    the actor has the [isAdmin] capability. *)
Definition requireAdmin (u : option User) : M unit :=
  if is_admin u then ret tt else raise AccessException.

(** ** The helpers of [CuratedFolder] *)

Definition readOnly (d : AccessDoc) : AccessDoc :=
  if AccessType_eqb (level d) WRITE then mkAccessDoc (id d) READ else d.

Definition writeable (d : AccessDoc) : AccessDoc :=
  if AccessType_eqb (level d) READ then mkAccessDoc (id d) WRITE else d.

(** [for doc in folder['access']['users'] + folder['access']['groups']]: the
    loop visits the documents of both lists and rewrites them in place. *)
Definition for_docs (body : AccessDoc -> AccessDoc) (a : AccessList)
  : AccessList :=
  mkAccessList (map body (users a)) (map body (groups a)).

Definition _makeReadOnly : M unit :=
  modify_folder (fun f => set_access (for_docs readOnly (access f)) f).

Definition _makeWriteable : M unit :=
  modify_folder (fun f => set_access (for_docs writeable (access f)) f).

Definition _addTimeline (oldCuration : Curation) (text : string) : M unit :=
  u <- getCurrentUser ;;
  curation <- the_curation ;;
  userId <- user_get u_id u ;;
  userLogin <- user_get u_login u ;;
  oldEnabled <- getitem ENABLED (c_enabled oldCuration) ;;
  oldStatus <- getitem STATUS (c_status oldCuration) ;;
  enabled <- getitem ENABLED (c_enabled curation) ;;
  status <- getitem STATUS (c_status curation) ;;
  timestamp <- now ;;
  modify_curation (append_timeline
    (mkEntry userId userLogin text
             oldEnabled oldStatus enabled status timestamp)).

(** [self.model('user').load(userId, force=True).get('email')]:
    [AttributeError] when there is no such document. *)
Definition _getEmail (userId : ObjectId) : M (option string) :=
  fun e w =>
    match load_user e userId with
    | Some account => (Ok (u_email account), w)
    | None => (Raise AttributeError, w)
    end.

(** [if not userId: return]; otherwise one message to the address of that
    user. *)
Definition _sendMail (userId : option ObjectId) (subject template : string)
  : M unit :=
  match userId with
  | None => ret tt
  | Some uid =>
      email <- _getEmail uid ;;
      sendEmail (mkMail [email] subject template)
  end.

(** ** The write route *)

Definition setCuration (params : Params) : M Curation :=
  u <- getCurrentUser ;;
  f <- folder ;;
  when (match curation f with None => true | Some _ => false end)
       (modify_folder (set_curation DEFAULTS)) ;;
  curation <- the_curation ;;
  let oldCuration := curation in

  (* update enabled *)
  let oldEnabled := get (c_enabled curation) false in
  match p_enabled params with
  | Some b => requireAdmin u ;; modify_curation (set_enabled b)
  | None => ret tt
  end ;;
  curation <- the_curation ;;
  let enabled := get (c_enabled curation) false in

  (* update status *)
  let oldStatus := c_status curation in
  match p_status params with
  | Some s =>
      (* regular users can only do construction -> requested transition *)
      when (negb (is_status (c_status curation) CONSTRUCTION)
            || negb (String.eqb s REQUESTED))
           (requireAdmin u) ;;
      modify_curation (set_status s)
  | None => ret tt
  end ;;
  curation <- the_curation ;;
  let status := c_status curation in

  (* admin enabling curation *)
  when (enabled && negb oldEnabled)
    (modify_folder (set_public false) ;;
     userId <- user_get u_id u ;;
     modify_curation (set_enableUserId userId) ;;
     _addTimeline oldCuration "enabled curation") ;;

  (* admin disabling curation *)
  when (negb enabled && oldEnabled)
    (_addTimeline oldCuration "disabled curation") ;;

  (* user requesting approval *)
  when (enabled && is_status oldStatus CONSTRUCTION && is_status status REQUESTED)
    (userId <- user_get u_id u ;;
     modify_curation (set_requestUserId userId) ;;
     _makeReadOnly ;;
     _addTimeline oldCuration "requested approval" ;;
     c <- the_curation ;;
     f <- folder ;;
     _sendMail (c_enableUserId c)
       ("REQUEST FOR APPROVAL: " ++ name f) "curation.requested.mako") ;;

  (* admin approving request *)
  when (enabled && is_status oldStatus REQUESTED && is_status status APPROVED)
    (modify_folder (set_public true) ;;
     userId <- user_get u_id u ;;
     modify_curation (set_reviewUserId userId) ;;
     _addTimeline oldCuration "approved request" ;;
     c <- the_curation ;;
     f <- folder ;;
     _sendMail (c_requestUserId c)
       ("APPROVED: " ++ name f) "curation.approved.mako") ;;

  (* admin rejecting request *)
  when (enabled && is_status oldStatus REQUESTED && is_status status CONSTRUCTION)
    (userId <- user_get u_id u ;;
     modify_curation (set_reviewUserId userId) ;;
     _makeWriteable ;;
     _addTimeline oldCuration "rejected request" ;;
     c <- the_curation ;;
     f <- folder ;;
     _sendMail (c_requestUserId c)
       ("REJECTED: " ++ name f) "curation.rejected.mako") ;;

  (* admin reopening folder *)
  when (enabled && is_status oldStatus APPROVED && is_status status CONSTRUCTION)
    (modify_folder (set_public false) ;;
     _makeWriteable ;;
     _addTimeline oldCuration "reopened folder") ;;

  save ;;
  the_curation.

(** ** Requests *)

(** The [loadmodel] decorator hands the handler the folder document read from
    the database.  (Its read-access check is girder's and comes before the
    handler; the handlers are modelled from the loaded document on.) *)
Definition loadmodel (w : World) : World :=
  mkWorld (stored w) (stored w) (outbox w) (ticks w).

(** [PUT folder/:id/curation] *)
Definition PUT (p : Params) : M Curation :=
  fun e w => setCuration p e (loadmodel w).

(** [GET folder/:id/curation] *)
Definition GET : M Curation :=
  fun e w => (Ok (getCuration (doc (loadmodel w))), w).

(** The dictionary [setCuration] works on: the stored one, or a copy of
    [DEFAULTS] when the folder has none (lines 78-80). *)
Definition current (f : Folder) : Curation := get (curation f) DEFAULTS.

Definition timeline (f : Folder) : list TimelineEntry :=
  get (c_timeline (current f)) [].

Definition is_enabled (f : Folder) : bool := get (c_enabled (current f)) false.

(** A stored dictionary has the two keys of [DEFAULTS]: [_addTimeline] reads
    both with [d[key]].  A folder without the dictionary gets a copy of
    [DEFAULTS], so every dictionary [setCuration] writes has them. *)
Definition well_formed (f : Folder) : Prop :=
  c_enabled (current f) <> None /\ c_status (current f) <> None.

(** ** The transition table of the specification *)

(** The status goes from [a] to [b]. *)
Definition edge (a b : string) (oldStatus status : option string) : bool :=
  is_status oldStatus a && is_status status b.

Definition enabling (oldEnabled enabled : bool) : bool :=
  negb oldEnabled && enabled.

Definition disabling (oldEnabled enabled : bool) : bool :=
  oldEnabled && negb enabled.

Definition requesting (enabled : bool) (oldStatus status : option string) :=
  enabled && edge CONSTRUCTION REQUESTED oldStatus status.

Definition approving (enabled : bool) (oldStatus status : option string) :=
  enabled && edge REQUESTED APPROVED oldStatus status.

Definition rejecting (enabled : bool) (oldStatus status : option string) :=
  enabled && edge REQUESTED CONSTRUCTION oldStatus status.

Definition reopening (enabled : bool) (oldStatus status : option string) :=
  enabled && edge APPROVED CONSTRUCTION oldStatus status.

(** The rows of the table that match a change of the two fields, named by the
    text of their timeline entry, in the order of the table. *)
Definition spec_transitions (oldEnabled enabled : bool)
  (oldStatus status : option string) : list string :=
  ((if enabling oldEnabled enabled then ["enabled curation"] else []) ++
   (if disabling oldEnabled enabled then ["disabled curation"] else []) ++
   (if requesting enabled oldStatus status then ["requested approval"] else []) ++
   (if approving enabled oldStatus status then ["approved request"] else []) ++
   (if rejecting enabled oldStatus status then ["rejected request"] else []) ++
   (if reopening enabled oldStatus status then ["reopened folder"] else []))%list.

(** The transitions between two states of a folder. *)
Definition fired (before after : Folder) : list string :=
  spec_transitions (is_enabled before) (is_enabled after)
    (c_status (current before)) (c_status (current after)).

(** An edge of the status graph of the specification. *)
Definition graph_edge (oldStatus status : option string) : bool :=
  edge CONSTRUCTION REQUESTED oldStatus status
  || edge REQUESTED APPROVED oldStatus status
  || edge REQUESTED CONSTRUCTION oldStatus status
  || edge APPROVED CONSTRUCTION oldStatus status.

(** What an entry records: the two fields before and after the call. *)
Definition records_diff (before after : Folder) (x : TimelineEntry) : Prop :=
  Some (e_oldEnabled x) = c_enabled (current before) /\
  Some (e_oldStatus x) = c_status (current before) /\
  Some (e_enabled x) = c_enabled (current after) /\
  Some (e_status x) = c_status (current after).

(** The authorization checks of [setCuration], as one test on its inputs. *)
Definition permitted (u : option User) (p : Params) (f : Folder) : bool :=
  match p_enabled p with Some _ => is_admin u | None => true end
  && match p_status p with
     | Some s =>
         is_admin u
         || (is_status (c_status (current f)) CONSTRUCTION && String.eqb s REQUESTED)
     | None => true
     end.

(** The message a row of the table sends: none when the addressee is not
    set, and none without a document to take the address from. *)
Definition notify (e : Env) (to : option ObjectId) (subject template : string)
  : list Mail :=
  match to with
  | Some uid =>
      match load_user e uid with
      | Some account => [mkMail [u_email account] subject template]
      | None => []
      end
  | None => []
  end.

Definition spec_mail (e : Env) (f : Folder) (c : Curation) (rq ap rj : bool)
  : list Mail :=
  if rq then
    notify e (c_enableUserId c)
      ("REQUEST FOR APPROVAL: " ++ name f) "curation.requested.mako"
  else if ap then
    notify e (c_requestUserId c)
      ("APPROVED: " ++ name f) "curation.approved.mako"
  else if rj then
    notify e (c_requestUserId c)
      ("REJECTED: " ++ name f) "curation.rejected.mako"
  else [].

(** The addressee, if any, has a document in the user collection. *)
Definition deliverable (e : Env) (to : option ObjectId) : Prop :=
  match to with
  | Some uid => load_user e uid <> None
  | None => True
  end.

(** The two fields as a request that goes through leaves them. *)
Definition next_enabled (p : Params) (f : Folder) : bool :=
  get (over_key (p_enabled p) (c_enabled (current f))) false.

Definition next_status (p : Params) (f : Folder) : option string :=
  over_key (p_status p) (c_status (current f)).

(** The rows a request would fire on a folder. *)
Definition planned (p : Params) (f : Folder) : list string :=
  spec_transitions (is_enabled f) (next_enabled p f)
    (c_status (current f)) (next_status p f).

(** The lookups of [_getEmail] a request would make find their documents:
    the request row writes to [enableUserId] (the caller, when the same
    request enables curation), the approval and rejection rows to
    [requestUserId]. *)
Definition mail_ok (e : Env) (p : Params) (f : Folder) : Prop :=
  (requesting (next_enabled p f) (c_status (current f)) (next_status p f) = true ->
   enabling (is_enabled f) (next_enabled p f) = false ->
   deliverable e (c_enableUserId (current f))) /\
  (approving (next_enabled p f) (c_status (current f)) (next_status p f)
   || rejecting (next_enabled p f) (c_status (current f)) (next_status p f)
   = true ->
   deliverable e (c_requestUserId (current f))).


Definition upgraded (d d' : AccessDoc) : Prop :=
  id d' = id d /\
  level d' = match level d with READ => WRITE | l => l end.

(** ** Sample data *)

Definition alice : User := mkUser 1%N "alice" true (Some "alice@example.org").
Definition bob : User := mkUser 2%N "bob" false (Some "bob@example.org").

(** A user collection with the two of them. *)
Definition both (userId : ObjectId) : option User :=
  if N.eqb userId 1 then Some alice
  else if N.eqb userId 2 then Some bob
  else None.

(** An empty user collection. *)
Definition nobody (userId : ObjectId) : option User := None.

Definition as_alice : Env := mkEnv (Some alice) (fun k => N.of_nat (100 + k)) both.
Definition as_bob : Env := mkEnv (Some bob) (fun k => N.of_nat (200 + k)) both.

(** A caller who is not logged in. *)
Definition as_anonymous : Env := mkEnv None (fun k => N.of_nat (300 + k)) both.

(** Bob, after Alice's user document was deleted. *)
Definition as_bob_alone : Env :=
  mkEnv (Some bob) (fun k => N.of_nat (400 + k)) nobody.


Definition sample_access : AccessList :=
  mkAccessList
    [mkAccessDoc 2%N WRITE; mkAccessDoc 3%N READ; mkAccessDoc 1%N ADMIN]
    [mkAccessDoc 9%N WRITE; mkAccessDoc 8%N NONE].

(** A folder that never went through the plugin. *)
Definition fresh_folder : Folder := mkFolder "data" true sample_access None.

Definition start : World := mkWorld fresh_folder fresh_folder [] 0.

Definition only_enabled (b : bool) : Params := mkParams (Some b) None.
Definition only_status (s : string) : Params := mkParams None (Some s).

(** The world after a request, whatever its result. *)
Definition after (p : Params) (e : Env) (w : World) : World := snd (PUT p e w).

(** Alice enables curation; Bob requests approval; Alice approves. *)
Definition enabled_world : World := after (only_enabled true) as_alice start.
Definition requested_world : World :=
  after (only_status REQUESTED) as_bob enabled_world.
Definition approved_world : World :=
  after (only_status APPROVED) as_alice requested_world.

(** Alice disables curation again, on the folder under construction and on
    the one with a pending request. *)
Definition disabled_world : World := after (only_enabled false) as_alice enabled_world.
Definition suspended_world : World :=
  after (only_enabled false) as_alice requested_world.

(** The default record [getCuration] starts from. *)
Definition default_record : Curation :=
  mkCuration (Some false) (Some CONSTRUCTION) (Some []) None None None.

(** The three states of the specification. *)
Definition recognised (s : string) : Prop :=
  s = CONSTRUCTION \/ s = REQUESTED \/ s = APPROVED.

(** One request that enables curation and asks for approval. *)
Definition enable_and_request : Params := mkParams (Some true) (Some REQUESTED).

(** ** Further notions *)

(** Curation that is enabled was enabled by someone. *)
Definition enabler_known (f : Folder) : Prop :=
  is_enabled f = true -> c_enableUserId (current f) <> None.

(** What a request followed by a rejection (or a reopening) makes of an access
    entry: [writeable] after [readOnly]. *)
Definition promoted (d d' : AccessDoc) : Prop :=
  id d' = id d /\
  level d' = match level d with READ | WRITE => WRITE | l => l end.

(** The key [_addTimeline] misses first in a dictionary, if any: it reads
    [oldCuration[ENABLED]] before [oldCuration[STATUS]]. *)
Definition first_key_missing (c : Curation) : option string :=
  match c_enabled c, c_status c with
  | None, _ => Some ENABLED
  | Some _, None => Some STATUS
  | Some _, Some _ => None
  end.

(** A stored dictionary without its status key. *)
Definition broken_folder : Folder :=
  mkFolder "data" true sample_access
    (Some (mkCuration (Some false) None None None None None)).

Definition broken_world : World := mkWorld broken_folder broken_folder [] 0.

(** The readings of the clock from the [n]-th on, [k] of them. *)
Definition readings (e : Env) (n k : nat) : list datetime :=
  map (utcnow e) (seq n k).

(** A record with curation enabled that names no [enableUserId], as a writer
    other than the plugin may leave it. *)
Definition orphan_folder : Folder :=
  mkFolder "data" false sample_access
    (Some (mkCuration (Some true) (Some CONSTRUCTION) None None None None)).

Definition orphan_world : World := mkWorld orphan_folder orphan_folder [] 0.

(** ** Proof automation: running a request by cases *)

Ltac unfold_request :=
  cbv [PUT setCuration loadmodel bind ret raise when getCurrentUser folder
       modify_folder getitem the_curation modify_curation now sendEmail save
       requireAdmin _makeReadOnly _makeWriteable _addTimeline _sendMail
       _getEmail user_get].

(** Decide a comparison of two literals; split on any other. *)
Ltac eqb_step :=
  match goal with
  | |- context [String.eqb ?a ?b] =>
      let v := eval cbv in (String.eqb a b) in
      lazymatch v with
      | true => change (String.eqb a b) with true
      | false => change (String.eqb a b) with false
      | _ => destruct (String.eqb_spec a b); [try subst a|]
      end
  end.

(** Split on a variable the next test of the handler looks at. *)
Ltac case_step :=
  match goal with
  | |- context [match ?x with Some _ => _ | None => _ end] => is_var x; destruct x
  | |- context [if ?x then _ else _] => is_var x; destruct x
  | |- context [match load_user ?e ?u with Some _ => _ | None => _ end] =>
      let H := fresh "Hload" in
      destruct (load_user e u) eqn:H;
      [| try (exfalso; cbv [load_user] in H; cbn in H;
              rewrite N.eqb_refl in H; discriminate H)]
  | |- context [is_admin ?x] => is_var x; destruct x
  | |- context [u_admin ?x] => is_var x; destruct x
  | |- context [is_status ?x _] => is_var x; destruct x
  | |- context [@get bool ?x _] => is_var x; destruct x
  | |- context [negb ?x] => is_var x; destruct x
  | |- context [andb ?x _] => is_var x; destruct x
  | |- context [andb _ ?x] => is_var x; destruct x
  | |- context [orb ?x _] => is_var x; destruct x
  | |- context [orb _ ?x] => is_var x; destruct x
  end.

(** Open the records the handler reads. *)
Ltac open_world w p e :=
  let d := fresh "d" in let st := fresh "st" in
  let out := fresh "out" in let n := fresh "n" in
  let cur := fresh "cur" in
  destruct w as [d st out n], st as [? ? ? cur], p as [? ?], e as [? ? ?];
  destruct cur as [[? ? ? ? ? ?]|].

(** Use what is known of a lookup in the user collection. *)
Ltac known_account :=
  match goal with
  | H : load_user ?e ?u = _ |- context [load_user ?e ?u] => rewrite H
  end.

Ltac crunch :=
  cbn;
  repeat (first [known_account | eqb_step | case_step]; try congruence; cbn).

Ltac run_request := unfold_request; crunch.

(** The result of a run that succeeded. *)
Ltac ok_run :=
  let H := fresh "Hrun" in
  intros H; try discriminate H; inversion H; subst; clear H.

Ltac unfold_views :=
  cbv [fired timeline is_enabled current spec_transitions enabling disabling
       requesting approving rejecting reopening edge graph_edge records_diff
       permitted well_formed after only_status only_enabled spec_mail notify
       next_enabled next_status planned mail_ok deliverable].

(** States of the database that the plugin can produce: a folder that has no
    curation dictionary yet, then any sequence of requests, by any users and
    with any parameters, failed or not. *)
Inductive reachable : World -> Prop :=
| reachable_new :
    forall w, curation (stored w) = None -> reachable w
| reachable_PUT :
    forall p e w, reachable w -> reachable (after p e w).


(** * Properties *)

Local Open Scope list_scope.

(** ** Running one request *)

Section Running.

(* Comparisons of strings and lookups of users stay folded while a request is
   run by cases. *)
#[local] Arguments String.eqb : simpl never.
#[local] Arguments load_user : simpl never.

(** A request that raises has saved nothing and sent nothing: [save] is the
    last step and every message is the last step of its branch.  It has not
    read the clock either, unless it is an [AttributeError] from [_getEmail],
    which comes after [_addTimeline].  [AccessException] comes from a request
    that is not [permitted]; [KeyError] from the first key [_addTimeline]
    misses, in a request with an [enabled] parameter; [AttributeError] from a
    caller who is not logged in when a row fires, or from a message whose
    addressee has no user document. *)
Lemma PUT_raise_all p e w x w' :
  PUT p e w = (Raise x, w') ->
  stored w' = stored w /\ outbox w' = outbox w /\
  (x <> AttributeError -> ticks w' = ticks w) /\
  (x = AccessException -> permitted (user e) p (stored w) = false) /\
  (forall k, x = KeyError k ->
     first_key_missing (current (stored w)) = Some k /\ p_enabled p <> None) /\
  (x = AttributeError ->
     (user e = None /\ planned p (stored w) <> []) \/ ~ mail_ok e p (stored w)).
Proof.
  open_world w p e; run_request.
  all: intros H; try discriminate H; inversion H; subst; clear H.
  all: split; [reflexivity | split; [reflexivity |]].
  all: split; [intros; solve [reflexivity | congruence] |].
  all: split; [intros; first [discriminate | cbv [permitted current]; cbn; reflexivity] |].
  all: split;
    [ intros k Hk; first [discriminate Hk
        | inversion Hk; cbv [first_key_missing current]; cbn;
          split; [reflexivity | discriminate] ] |].
  all: intros Hx; try discriminate Hx.
  all: unfold_views; cbn.
  all: first
    [ left; split; [reflexivity | discriminate]
    | right; intros [Hrq Hap];
      first [ apply Hrq; solve [reflexivity | assumption]
            | apply Hap; solve [reflexivity | assumption] ] ].
Qed.

(** A request that is not [permitted] raises [AccessException], and the loaded
    document still reads as the stored one. *)
Lemma PUT_denied p e w :
  permitted (user e) p (stored w) = false ->
  exists w',
    PUT p e w = (Raise AccessException, w') /\
    current (doc w') = current (stored w) /\
    name (doc w') = name (stored w) /\
    public (doc w') = public (stored w) /\
    access (doc w') = access (stored w).
Proof.
  open_world w p e; unfold_views; run_request.
  all: try discriminate; intros _; eexists; repeat split.
Qed.

(** The state after a request that went through: the timeline got the
    entries of the rows that fired, in the order of the table, written by the
    caller at successive readings of the clock, and the rest of the folder
    changed row by row. *)
Lemma PUT_ok_all p e w c w' :
  PUT p e w = (Ok c, w') ->
  let before := stored w in
  let after := stored w' in
  let old := current before in
  let uid := option_map u_id (user e) in
  let en := enabling (is_enabled before) (is_enabled after) in
  let rq := requesting (is_enabled after) (c_status old) (c_status c) in
  let ap := approving (is_enabled after) (c_status old) (c_status c) in
  let rj := rejecting (is_enabled after) (c_status old) (c_status c) in
  let ro := reopening (is_enabled after) (c_status old) (c_status c) in
  (exists added,
     timeline after = timeline before ++ added /\
     map e_text added = fired before after /\
     Forall (records_diff before after) added /\
     Forall (fun x => option_map u_id (user e) = Some (e_userId x) /\
                      option_map u_login (user e) = Some (e_userLogin x)) added /\
     map e_timestamp added = readings e (ticks w) (length added) /\
     ticks w' = ticks w + length added) /\
  doc w' = after /\ curation after = Some c /\ name after = name before /\
  c_enabled c = over_key (p_enabled p) (c_enabled old) /\
  c_status c = over_key (p_status p) (c_status old) /\
  c_enableUserId c = (if en then uid else c_enableUserId old) /\
  c_requestUserId c = (if rq then uid else c_requestUserId old) /\
  c_reviewUserId c = (if ap || rj then uid else c_reviewUserId old) /\
  public after =
    (if ap then true else if en || ro then false else public before) /\
  access after =
    (if rq then for_docs readOnly (access before)
     else if rj || ro then for_docs writeable (access before)
     else access before) /\
  outbox w' = outbox w ++ spec_mail e before c rq ap rj /\
  (rq = true -> deliverable e (c_enableUserId c)) /\
  (ap || rj = true -> deliverable e (c_requestUserId c)) /\
  (fired before after <> [] -> user e <> None).
Proof.
  open_world w p e; run_request.
  all: ok_run; unfold_views; cbv [readings]; crunch.
  all: rewrite ?app_nil_r; split;
    [ eexists; split;
      [ first [ reflexivity | rewrite <- app_assoc; reflexivity
              | symmetry; apply app_nil_r ]
      | split; [ reflexivity
        | split; [ repeat constructor
          | split; [ repeat constructor
            | split; [ reflexivity | cbn; lia ] ] ] ] ]
    | repeat split ].
  all: intros Hrow; try discriminate Hrow; try exact I; congruence.
Qed.

(** [_addTimeline] reads [oldCuration[ENABLED]] and [oldCuration[STATUS]]:
    a request that changes the [enabled] flag of a dictionary without one of
    them raises [KeyError] on the first that is missing. *)
Lemma PUT_missing_key p e w b k :
  is_admin (user e) = true ->
  p_enabled p = Some b ->
  is_enabled (stored w) <> b ->
  first_key_missing (current (stored w)) = Some k ->
  exists w', PUT p e w = (Raise (KeyError k), w').
Proof.
  open_world w p e; cbv [first_key_missing is_enabled current]; run_request.
  all: intros Hu Hp Hb Hk; try discriminate; try congruence.
  all: inversion Hk; subst; eexists; reflexivity.
Qed.

End Running.

(** A request that raises leaves the database and the outbox as they were,
    and the clock too unless it is an [AttributeError]. *)
Lemma PUT_raise p e w x w' :
  PUT p e w = (Raise x, w') ->
  stored w' = stored w /\ outbox w' = outbox w /\
  (x <> AttributeError -> ticks w' = ticks w).
Proof.
  intros H. destruct (PUT_raise_all _ _ _ _ _ H) as (H1 & H2 & H3 & _). auto.
Qed.

Lemma well_formed_no_key_missing f :
  well_formed f -> first_key_missing (current f) = None.
Proof.
  unfold well_formed, first_key_missing. intros [He Hs].
  destruct (c_enabled (current f)); [|congruence].
  destruct (c_status (current f)); [reflexivity | congruence].
Qed.

(** A [permitted] request goes through when the dictionary has its two keys
    or the request leaves [enabled] alone, the caller is logged in or no row
    fires, and the addressees of its messages have their user documents. *)
Lemma PUT_permitted p e w :
  permitted (user e) p (stored w) = true ->
  well_formed (stored w) \/ p_enabled p = None ->
  user e <> None \/ planned p (stored w) = [] ->
  mail_ok e p (stored w) ->
  exists c w', PUT p e w = (Ok c, w').
Proof.
  intros Hperm Hkeys Huser Hmail.
  destruct (PUT p e w) as [[c|x] w'] eqn:Hrun; [eauto|].
  exfalso.
  destruct (PUT_raise_all _ _ _ _ _ Hrun) as (_ & _ & _ & Hacc & Hkey & Hattr).
  destruct x as [|k|].
  - rewrite (Hacc eq_refl) in Hperm. discriminate.
  - destruct (Hkey k eq_refl) as [Hmiss Hpe].
    destruct Hkeys as [Hwf|]; [|contradiction].
    rewrite (well_formed_no_key_missing _ Hwf) in Hmiss. discriminate.
  - destruct (Hattr eq_refl) as [[Hnone Hplan]|Hno]; [|contradiction].
    destruct Huser; contradiction.
Qed.

(** The timeline after a request that went through: the entries of the rows
    that fired, in the order of the table, after the old ones. *)
Lemma PUT_ok_timeline p e w c w' :
  PUT p e w = (Ok c, w') ->
  exists added,
    timeline (stored w') = timeline (stored w) ++ added /\
    map e_text added = fired (stored w) (stored w') /\
    Forall (records_diff (stored w) (stored w')) added.
Proof.
  intros H.
  destruct (PUT_ok_all _ _ _ _ _ H) as ((added & H1 & H2 & H3 & _) & _).
  eauto.
Qed.

(** Who wrote the entries a request added, and when. *)
Lemma PUT_ok_entries p e w c w' :
  PUT p e w = (Ok c, w') ->
  exists added,
    timeline (stored w') = timeline (stored w) ++ added /\
    Forall (fun x => option_map u_id (user e) = Some (e_userId x) /\
                     option_map u_login (user e) = Some (e_userLogin x)) added /\
    map e_timestamp added = readings e (ticks w) (length added) /\
    ticks w' = ticks w + length added.
Proof.
  intros H.
  destruct (PUT_ok_all _ _ _ _ _ H)
    as ((added & H1 & _ & _ & H4 & H5 & H6) & _).
  eauto.
Qed.

(** The rest of the state after a request that went through, row by row. *)
Lemma PUT_ok p e w c w' :
  PUT p e w = (Ok c, w') ->
  let before := stored w in
  let after := stored w' in
  let old := current before in
  let uid := option_map u_id (user e) in
  let en := enabling (is_enabled before) (is_enabled after) in
  let rq := requesting (is_enabled after) (c_status old) (c_status c) in
  let ap := approving (is_enabled after) (c_status old) (c_status c) in
  let rj := rejecting (is_enabled after) (c_status old) (c_status c) in
  let ro := reopening (is_enabled after) (c_status old) (c_status c) in
  doc w' = after /\ curation after = Some c /\ name after = name before /\
  c_enabled c = over_key (p_enabled p) (c_enabled old) /\
  c_status c = over_key (p_status p) (c_status old) /\
  c_enableUserId c = (if en then uid else c_enableUserId old) /\
  c_requestUserId c = (if rq then uid else c_requestUserId old) /\
  c_reviewUserId c = (if ap || rj then uid else c_reviewUserId old) /\
  public after =
    (if ap then true else if en || ro then false else public before) /\
  access after =
    (if rq then for_docs readOnly (access before)
     else if rj || ro then for_docs writeable (access before)
     else access before) /\
  outbox w' = outbox w ++ spec_mail e before c rq ap rj.
Proof.
  intros H.
  destruct (PUT_ok_all _ _ _ _ _ H)
    as (_ & H1 & H2 & H3 & H4 & H5 & H6 & H7 & H8 & H9 & H10 & H11 & _).
  cbv zeta. repeat split; assumption.
Qed.

(** A request that went through found the user documents it looked up, and
    if a row fired the caller was logged in. *)
Lemma PUT_ok_users p e w c w' :
  PUT p e w = (Ok c, w') ->
  let old := current (stored w) in
  let rq := requesting (is_enabled (stored w')) (c_status old) (c_status c) in
  let ap := approving (is_enabled (stored w')) (c_status old) (c_status c) in
  let rj := rejecting (is_enabled (stored w')) (c_status old) (c_status c) in
  (rq = true -> deliverable e (c_enableUserId c)) /\
  (ap || rj = true -> deliverable e (c_requestUserId c)) /\
  (fired (stored w) (stored w') <> [] -> user e <> None).
Proof.
  intros H.
  destruct (PUT_ok_all _ _ _ _ _ H)
    as (_ & _ & _ & _ & _ & _ & _ & _ & _ & _ & _ & _ & H12 & H13 & H14).
  cbv zeta. repeat split; assumption.
Qed.

(** ** Views of a folder *)

Lemma current_Some f c : curation f = Some c -> current f = c.
Proof. unfold current; intros ->; reflexivity. Qed.

Lemma getCuration_current f g :
  current f = current g -> getCuration f = getCuration g.
Proof.
  unfold current, getCuration.
  destruct (curation f), (curation g); cbn; intros H; subst; reflexivity.
Qed.

Lemma is_status_eq x s : is_status x s = true <-> x = Some s.
Proof.
  destruct x as [v|]; cbn; [|split; discriminate].
  rewrite String.eqb_eq. split; congruence.
Qed.

Lemma is_status_neq v s : v <> s -> is_status (Some v) s = false.
Proof. intros H. cbn. now apply String.eqb_neq. Qed.

Lemma PUT_ok_current p e w c w' :
  PUT p e w = (Ok c, w') -> current (stored w') = c.
Proof. intros H. apply current_Some. apply (PUT_ok _ _ _ _ _ H). Qed.

(** The world [after] a request is the one its run returns. *)
Lemma after_run p e w r w' : PUT p e w = (r, w') -> after p e w = w'.
Proof. unfold after. intros ->. reflexivity. Qed.

(** ** The read route *)

(** C9: getCuration returns the stored record merged over the defaults
    [{enabled: false, status: construction, timeline: []}]: a key the stored
    record has keeps its value, a missing one of the three takes the default,
    and a folder with no curation data reads as exactly the default record. *)
Theorem getCuration_merges_defaults (f : Folder) :
  (curation f = None -> getCuration f = default_record) /\
  (forall c, curation f = Some c ->
     c_enabled (getCuration f) = Some (get (c_enabled c) false) /\
     c_status (getCuration f) = Some (get (c_status c) CONSTRUCTION) /\
     c_timeline (getCuration f) = Some (get (c_timeline c) []) /\
     c_enableUserId (getCuration f) = c_enableUserId c /\
     c_requestUserId (getCuration f) = c_requestUserId c /\
     c_reviewUserId (getCuration f) = c_reviewUserId c).
Proof.
  unfold getCuration. split.
  - intros ->. reflexivity.
  - intros c ->. destruct c as [[b|] [s|] [t|] [u|] [q|] [v|]]; cbn; repeat split.
Qed.

(** ** Authorization *)

(** For a user who is no administrator, [permitted] says: no [enabled]
    parameter, and a status parameter only for construction -> requested. *)
Lemma permitted_non_admin u p f :
  is_admin u = false ->
  permitted u p f = true <->
  p_enabled p = None /\
  (forall s, p_status p = Some s ->
     c_status (current f) = Some CONSTRUCTION /\ s = REQUESTED).
Proof.
  intros Hu. unfold permitted. rewrite Hu.
  destruct (p_enabled p) as [b|], (p_status p) as [s|]; cbn.
  - split; [discriminate | intros [H _]; discriminate H].
  - split; [discriminate | intros [H _]; discriminate H].
  - rewrite andb_true_iff, is_status_eq, String.eqb_eq. split.
    + intros [H1 H2]. split; [reflexivity|]. intros s' [= <-]. auto.
    + intros [_ H]. apply H. reflexivity.
  - split; [|reflexivity]. intros _. split; [reflexivity | discriminate].
Qed.

(** C5: a user who is no administrator and sends an [enabled] parameter gets
    [AccessException] (PermissionDenied); the stored folder, hence its curation
    record, is unchanged, no message is sent, and the document loaded for the
    request still reads as the stored record: [requireAdmin] comes before the
    first write of the request. *)
Theorem non_admin_enabled_denied p e w b :
  is_admin (user e) = false ->
  p_enabled p = Some b ->
  exists w',
    PUT p e w = (Raise AccessException, w') /\
    stored w' = stored w /\
    outbox w' = outbox w /\
    getCuration (doc w') = getCuration (stored w).
Proof.
  intros Hu Hp.
  assert (Hperm : permitted (user e) p (stored w) = false).
  { unfold permitted. rewrite Hp, Hu. reflexivity. }
  destruct (PUT_denied p e w Hperm) as (w' & Hrun & Hcur & _).
  destruct (PUT_raise _ _ _ _ _ Hrun) as (Hst & Hout & _).
  exists w'. repeat split; auto using getCuration_current.
Qed.

Lemma non_admin_enabled_denied_witness :
  exists w',
    PUT (only_enabled true) as_bob start = (Raise AccessException, w') /\
    stored w' = stored start /\
    outbox w' = outbox start /\
    getCuration (doc w') = getCuration (stored start).
Proof.
  apply (non_admin_enabled_denied (only_enabled true) as_bob start true);
    reflexivity.
Defined.







(** ** The transition table *)

Lemma constants_differ :
  CONSTRUCTION <> REQUESTED /\ CONSTRUCTION <> APPROVED /\ REQUESTED <> APPROVED.
Proof. repeat split; discriminate. Qed.

(** No row of the table leads to a status outside the three states. *)
Lemma no_row_to_unrecognised en old s :
  ~ recognised s ->
  requesting en old (Some s) = false /\
  approving en old (Some s) = false /\
  rejecting en old (Some s) = false /\
  reopening en old (Some s) = false.
Proof.
  intros H. unfold recognised in H.
  unfold requesting, approving, rejecting, reopening, edge.
  rewrite !is_status_neq by tauto.
  rewrite !andb_false_r. auto.
Qed.

(** No row of the table starts and ends in the same status. *)
Lemma no_row_in_place en s :
  requesting en s s = false /\
  approving en s s = false /\
  rejecting en s s = false /\
  reopening en s s = false.
Proof.
  destruct constants_differ as (H1 & H2 & H3).
  unfold requesting, approving, rejecting, reopening, edge.
  destruct s as [v|]; cbn; rewrite ?andb_false_r; auto.
  destruct (String.eqb_spec v CONSTRUCTION), (String.eqb_spec v REQUESTED),
    (String.eqb_spec v APPROVED); subst;
    rewrite ?andb_false_r; auto; congruence.
Qed.

Lemma graph_edge_irrefl s : graph_edge s s = false.
Proof.
  destruct (no_row_in_place true s) as (H1 & H2 & H3 & H4).
  unfold requesting, approving, rejecting, reopening in *. cbn in *.
  unfold graph_edge. rewrite H1, H2, H3, H4. reflexivity.
Qed.

Lemma transitions_enabled_change oldE newE oldS newS :
  newE <> oldE -> spec_transitions oldE newE oldS newS <> [].
Proof.
  unfold spec_transitions, enabling, disabling.
  destruct oldE, newE; cbn; congruence.
Qed.

Lemma transitions_edge oldE oldS newS :
  graph_edge oldS newS = true -> spec_transitions oldE true oldS newS <> [].
Proof.
  unfold spec_transitions, graph_edge, requesting, approving, rejecting,
    reopening, enabling, disabling.
  destruct oldE, (edge CONSTRUCTION REQUESTED oldS newS),
    (edge REQUESTED APPROVED oldS newS), (edge REQUESTED CONSTRUCTION oldS newS),
    (edge APPROVED CONSTRUCTION oldS newS); cbn; congruence.
Qed.

Lemma transitions_disabled oldS newS :
  spec_transitions false false oldS newS = [].
Proof. reflexivity. Qed.

(** The rows are named apart, so each fires at most once in a call. *)
Lemma transitions_NoDup oldE newE oldS newS :
  NoDup (spec_transitions oldE newE oldS newS).
Proof.
  unfold spec_transitions.
  destruct (enabling oldE newE), (disabling oldE newE),
    (requesting newE oldS newS), (approving newE oldS newS),
    (rejecting newE oldS newS), (reopening newE oldS newS); cbn;
    repeat constructor; cbn; intuition discriminate.
Qed.

Lemma map_not_nil {A B} (g : A -> B) l : map g l <> [] -> l <> [].
Proof. destruct l; cbn; congruence. Qed.

(** ** The status parameter *)

Lemma mail_ok_no_row e p f :
  requesting (next_enabled p f) (c_status (current f)) (next_status p f) = false ->
  approving (next_enabled p f) (c_status (current f)) (next_status p f) = false ->
  rejecting (next_enabled p f) (c_status (current f)) (next_status p f) = false ->
  mail_ok e p f.
Proof. intros H1 H2 H3. unfold mail_ok. rewrite H1, H2, H3. split; discriminate. Qed.

Lemma is_admin_logged_in u : is_admin u = true -> u <> None.
Proof. destruct u; [discriminate | discriminate]. Qed.

(** C2, as the code has it: a status that is none of the three states is not
    rejected as such.  From a caller who is no administrator the request
    raises [AccessException] and changes nothing; from an administrator it
    goes through, the value is stored as the status as it was sent, no access
    level changes and no message is sent. *)
Theorem unrecognised_status p e w s :
  p_status p = Some s ->
  ~ recognised s ->
  (is_admin (user e) = false ->
     exists w',
       PUT p e w = (Raise AccessException, w') /\
       stored w' = stored w /\ outbox w' = outbox w) /\
  (is_admin (user e) = true ->
     well_formed (stored w) ->
     exists c w',
       PUT p e w = (Ok c, w') /\
       curation (stored w') = Some c /\
       c_status c = Some s /\
       access (stored w') = access (stored w) /\
       outbox w' = outbox w).
Proof.
  intros Hs Hrec. split.
  - intros Hu.
    assert (Hperm : permitted (user e) p (stored w) = false).
    { apply not_true_is_false. intros Hperm.
      apply (permitted_non_admin _ _ _ Hu) in Hperm.
      destruct Hperm as [_ Hall]. destruct (Hall s Hs) as [_ ->].
      apply Hrec. right; left; reflexivity. }
    destruct (PUT_denied p e w Hperm) as (w' & Hrun & _).
    destruct (PUT_raise _ _ _ _ _ Hrun) as (Hst & Hout & _).
    exists w'. auto.
  - intros Hu Hwf.
    assert (Hperm : permitted (user e) p (stored w) = true).
    { unfold permitted. rewrite Hu. destruct (p_enabled p), (p_status p);
        reflexivity. }
    assert (Hmail : mail_ok e p (stored w)).
    { destruct (no_row_to_unrecognised (next_enabled p (stored w))
                  (c_status (current (stored w))) s Hrec) as (H1 & H2 & H3 & _).
      apply mail_ok_no_row; unfold next_status; rewrite Hs; assumption. }
    destruct (PUT_permitted p e w Hperm (or_introl Hwf)
                (or_introl (is_admin_logged_in _ Hu)) Hmail) as (c & w' & Hrun).
    destruct (PUT_ok _ _ _ _ _ Hrun)
      as (_ & Hcur & _ & _ & Hst & _ & _ & _ & _ & Hacc & Hout).
    assert (Hc : c_status c = Some s) by (rewrite Hst, Hs; reflexivity).
    rewrite Hc in Hacc, Hout.
    destruct (no_row_to_unrecognised (is_enabled (stored w'))
                (c_status (current (stored w))) s Hrec) as (H1 & H2 & H3 & H4).
    rewrite H1, H3, H4 in Hacc. rewrite H1, H2, H3 in Hout.
    cbn in Hacc, Hout. rewrite app_nil_r in Hout.
    exists c, w'. auto.
Qed.

Lemma unrecognised_status_witness :
  (exists w',
     PUT (only_status "published") as_bob enabled_world
       = (Raise AccessException, w') /\
     stored w' = stored enabled_world /\ outbox w' = outbox enabled_world) /\
  (exists c w',
     PUT (only_status "published") as_alice enabled_world = (Ok c, w') /\
     curation (stored w') = Some c /\
     c_status c = Some "published" /\
     access (stored w') = access (stored enabled_world) /\
     outbox w' = outbox enabled_world).
Proof.
  assert (Hrec : ~ recognised "published")
    by (intros [H | [H | H]]; discriminate H).
  split.
  - apply (unrecognised_status (only_status "published") as_bob enabled_world
             "published" eq_refl Hrec).
    reflexivity.
  - apply (unrecognised_status (only_status "published") as_alice enabled_world
             "published" eq_refl Hrec).
    + reflexivity.
    + split; discriminate.
Defined.

(** C2 as stated fails: an administrator sends a status that is none of the
    three states; the request is not rejected and the value is stored. *)
Lemma admin_stores_unrecognised_status :
  ~ recognised "published" /\
  fst (PUT (only_status "published") as_alice enabled_world)
    = Ok (current (stored (after (only_status "published") as_alice enabled_world))) /\
  c_status (current (stored (after (only_status "published") as_alice
                               enabled_world)))
    = Some "published".
Proof.
  split; [intros [H | [H | H]]; discriminate H | split; reflexivity].
Qed.

(** ** The timeline *)

(** C3, as the code has it: no request edits or removes a timeline entry (the
    stored timeline after a request is the one before it followed by the
    entries added).  A request that changes the [enabled] flag adds at least
    one entry, and so does one that moves the status along an edge of the
    graph while curation is enabled after it; a request that leaves curation
    disabled adds none, whatever it does to the status. *)
Theorem timeline_append_only p e w :
  exists added,
    timeline (stored (after p e w)) = timeline (stored w) ++ added /\
    (is_enabled (stored (after p e w)) <> is_enabled (stored w) ->
       added <> []) /\
    (is_enabled (stored (after p e w)) = true ->
     graph_edge (c_status (current (stored w)))
                (c_status (current (stored (after p e w)))) = true ->
       added <> []) /\
    (is_enabled (stored w) = false ->
     is_enabled (stored (after p e w)) = false ->
       added = []).
Proof.
  destruct (PUT p e w) as [[c|x] w'] eqn:Hrun;
    rewrite (after_run _ _ _ _ _ Hrun).
  - destruct (PUT_ok_timeline _ _ _ _ _ Hrun) as (added & Htl & Htext & _).
    exists added. unfold fired in Htext. repeat split.
    + assumption.
    + intros Hne. apply (map_not_nil e_text). rewrite Htext.
      now apply transitions_enabled_change.
    + intros Hen Hedge. apply (map_not_nil e_text). rewrite Htext, Hen.
      now apply transitions_edge.
    + intros Hold Hnew. rewrite Hold, Hnew, transitions_disabled in Htext.
      now destruct added.
  - destruct (PUT_raise _ _ _ _ _ Hrun) as (Hst & _).
    exists []. rewrite Hst, app_nil_r, graph_edge_irrefl.
    repeat split; congruence.
Qed.

(** C3 as stated fails: with curation disabled, a request moves the stored
    status from construction to requested and the timeline stays as it was. *)
Lemma status_change_without_entry :
  is_enabled (stored disabled_world) = false /\
  c_status (current (stored disabled_world)) = Some CONSTRUCTION /\
  c_status (current (stored (after (only_status REQUESTED) as_bob
                               disabled_world))) = Some REQUESTED /\
  timeline (stored (after (only_status REQUESTED) as_bob disabled_world))
    = timeline (stored disabled_world).
Proof. repeat split. Qed.

(** C6: every row of the table that fires in a request that goes through adds
    exactly one timeline entry, in the order of the table: the texts of the
    entries added are the rows that fired, each once.  Every entry added
    records the [enabled] flag and the status of the record before the call
    as [oldEnabled] and [oldStatus], and those after the call as [enabled] and
    [status]. *)
Theorem transition_entries p e w c w' :
  PUT p e w = (Ok c, w') ->
  exists added,
    timeline (stored w') = timeline (stored w) ++ added /\
    map e_text added = fired (stored w) (stored w') /\
    NoDup (map e_text added) /\
    Forall (records_diff (stored w) (stored w')) added.
Proof.
  intros Hrun.
  destruct (PUT_ok_timeline _ _ _ _ _ Hrun) as (added & Htl & Htext & Hdiff).
  exists added. repeat split; try assumption.
  rewrite Htext. apply transitions_NoDup.
Qed.

Lemma transition_entries_witness :
  exists added,
    timeline (stored (after enable_and_request as_alice start))
      = timeline (stored start) ++ added /\
    map e_text added
      = fired (stored start) (stored (after enable_and_request as_alice start)) /\
    NoDup (map e_text added) /\
    Forall (records_diff (stored start)
              (stored (after enable_and_request as_alice start))) added.
Proof.
  refine (transition_entries enable_and_request as_alice start
            (current (stored (after enable_and_request as_alice start)))
            (after enable_and_request as_alice start) _).
  vm_compute. reflexivity.
Defined.

(** ** Rewriting the access list *)


Lemma Forall2_writeable l : Forall2 upgraded l (map writeable l).
Proof.
  induction l as [|[i []] l IH]; cbn; constructor; auto; split; reflexivity.
Qed.

(** ** Requests that send one parameter *)

Lemma is_enabled_after p e w c w' :
  PUT p e w = (Ok c, w') -> is_enabled (stored w') = get (c_enabled c) false.
Proof.
  intros H. unfold is_enabled. now rewrite (PUT_ok_current _ _ _ _ _ H).
Qed.

Lemma enabling_same b : enabling b b = false.
Proof. now destruct b. Qed.

Lemma next_only_status f s1 :
  c_enabled (current f) = Some true ->
  next_enabled (only_status s1) f = true /\
  next_status (only_status s1) f = Some s1 /\
  is_enabled f = true.
Proof.
  intros He. unfold next_enabled, next_status, is_enabled. rewrite He.
  repeat split.
Qed.

(** The lookups of a request that sends a status alone, on a record with
    curation enabled. *)
Lemma mail_ok_only_status e f s0 s1 :
  c_enabled (current f) = Some true ->
  c_status (current f) = Some s0 ->
  (requesting true (Some s0) (Some s1) = true ->
   deliverable e (c_enableUserId (current f))) ->
  (approving true (Some s0) (Some s1) || rejecting true (Some s0) (Some s1) = true ->
   deliverable e (c_requestUserId (current f))) ->
  mail_ok e (only_status s1) f.
Proof.
  intros He Hs Hrq Hrv.
  destruct (next_only_status f s1 He) as (Hne & Hns & _).
  unfold mail_ok. rewrite Hne, Hns, Hs. split; auto.
Qed.

(** A status parameter alone, from a user who is logged in, on a record with
    curation enabled: the rows of the table between the old status and the
    new one. *)
Lemma PUT_only_status e w u s0 s1 :
  user e = Some u ->
  permitted (user e) (only_status s1) (stored w) = true ->
  c_enabled (current (stored w)) = Some true ->
  c_status (current (stored w)) = Some s0 ->
  mail_ok e (only_status s1) (stored w) ->
  let old := current (stored w) in
  let uid := u_id u in
  let rq := requesting true (Some s0) (Some s1) in
  let ap := approving true (Some s0) (Some s1) in
  let rj := rejecting true (Some s0) (Some s1) in
  let ro := reopening true (Some s0) (Some s1) in
  exists c w',
    PUT (only_status s1) e w = (Ok c, w') /\
    current (stored w') = c /\
    c_enabled c = Some true /\
    c_status c = Some s1 /\
    c_enableUserId c = c_enableUserId old /\
    c_requestUserId c = (if rq then Some uid else c_requestUserId old) /\
    c_reviewUserId c = (if ap || rj then Some uid else c_reviewUserId old) /\
    public (stored w') =
      (if ap then true else if ro then false else public (stored w)) /\
    access (stored w') =
      (if rq then for_docs readOnly (access (stored w))
       else if rj || ro then for_docs writeable (access (stored w))
       else access (stored w)) /\
    outbox w' = outbox w ++ spec_mail e (stored w) c rq ap rj /\
    exists added,
      timeline (stored w') = timeline (stored w) ++ added /\
      map e_text added = spec_transitions true true (Some s0) (Some s1).
Proof.
  intros Hu Hperm He Hs Hmail old uid rq ap rj ro.
  assert (Hin : user e <> None) by (rewrite Hu; discriminate).
  destruct (PUT_permitted _ e w Hperm (or_intror eq_refl) (or_introl Hin) Hmail)
    as (c & w' & Hrun).
  pose proof (PUT_ok_current _ _ _ _ _ Hrun) as Hc.
  pose proof (is_enabled_after _ _ _ _ _ Hrun) as Hen.
  destruct (PUT_ok _ _ _ _ _ Hrun)
    as (_ & _ & _ & Hce & Hcs & Heu & Hqu & Hvu & Hpub & Hacc & Hout).
  destruct (PUT_ok_timeline _ _ _ _ _ Hrun) as (added & Htl & Htext & _).
  cbn in Hce, Hcs. rewrite He in Hce. rewrite Hce in Hen. cbn in Hen.
  unfold fired in Htext.
  assert (Hold : is_enabled (stored w) = true) by (unfold is_enabled; now rewrite He).
  rewrite Hu in Heu, Hqu, Hvu. cbn [option_map] in Heu, Hqu, Hvu.
  rewrite Hen, Hold, Hs, Hc, Hcs in *. cbn [enabling negb andb orb] in *.
  exists c, w'. repeat split; try assumption.
  exists added. split; assumption.
Qed.

(** An [enabled] parameter alone, from an administrator, on a record that has
    its two keys. *)
Lemma PUT_only_enabled e w u b b0 s0 :
  user e = Some u ->
  u_admin u = true ->
  c_enabled (current (stored w)) = Some b0 ->
  c_status (current (stored w)) = Some s0 ->
  let old := current (stored w) in
  exists c w',
    PUT (only_enabled b) e w = (Ok c, w') /\
    current (stored w') = c /\
    c_enabled c = Some b /\
    c_status c = Some s0 /\
    c_enableUserId c =
      (if enabling b0 b then Some (u_id u) else c_enableUserId old) /\
    c_requestUserId c = c_requestUserId old /\
    c_reviewUserId c = c_reviewUserId old /\
    public (stored w') = (if enabling b0 b then false else public (stored w)) /\
    access (stored w') = access (stored w) /\
    outbox w' = outbox w /\
    exists added,
      timeline (stored w') = timeline (stored w) ++ added /\
      map e_text added =
        (if enabling b0 b then ["enabled curation"] else []) ++
        (if disabling b0 b then ["disabled curation"] else []).
Proof.
  intros Hu Hadm He Hs old.
  assert (Hperm : permitted (user e) (only_enabled b) (stored w) = true).
  { unfold permitted. rewrite Hu. cbn. now rewrite Hadm. }
  assert (Hwf : well_formed (stored w)) by (split; congruence).
  assert (Hin : user e <> None) by (rewrite Hu; discriminate).
  assert (Hmail : mail_ok e (only_enabled b) (stored w)).
  { destruct (no_row_in_place (next_enabled (only_enabled b) (stored w))
                (c_status (current (stored w)))) as (H1 & H2 & H3 & _).
    apply mail_ok_no_row; unfold next_status; cbn [only_enabled p_status over_key];
      assumption. }
  destruct (PUT_permitted _ e w Hperm (or_introl Hwf) (or_introl Hin) Hmail)
    as (c & w' & Hrun).
  pose proof (PUT_ok_current _ _ _ _ _ Hrun) as Hc.
  pose proof (is_enabled_after _ _ _ _ _ Hrun) as Hen.
  destruct (PUT_ok _ _ _ _ _ Hrun)
    as (_ & _ & _ & Hce & Hcs & Heu & Hqu & Hvu & Hpub & Hacc & Hout).
  destruct (PUT_ok_timeline _ _ _ _ _ Hrun) as (added & Htl & Htext & _).
  cbn in Hce, Hcs. rewrite Hs in Hcs. rewrite Hce in Hen. cbn in Hen.
  unfold fired, spec_transitions in Htext.
  assert (Hold : is_enabled (stored w) = b0) by (unfold is_enabled; now rewrite He).
  destruct (no_row_in_place b (Some s0)) as (H1 & H2 & H3 & H4).
  rewrite Hu in Heu, Hqu, Hvu. cbn [option_map] in Heu, Hqu, Hvu.
  rewrite Hen, Hold, Hs, Hc, Hcs in *. rewrite H1, H2, H3, H4 in *.
  cbn [orb spec_mail] in *. rewrite ?orb_false_r, ?app_nil_r in *.
  exists c, w'. repeat split; try assumption.
  exists added. split; assumption.
Qed.

(** What a request raises when it is permitted and its record has the two
    keys. *)
Lemma PUT_permitted_raise p e w x w' :
  PUT p e w = (Raise x, w') ->
  permitted (user e) p (stored w) = true ->
  well_formed (stored w) \/ p_enabled p = None ->
  x = AttributeError /\ stored w' = stored w /\ outbox w' = outbox w.
Proof.
  intros Hrun Hperm Hkeys.
  destruct (PUT_raise_all _ _ _ _ _ Hrun) as (Hst & Hout & _ & Hacc & Hkey & _).
  repeat split; try assumption.
  destruct x as [|k|]; [| |reflexivity].
  - rewrite (Hacc eq_refl) in Hperm. discriminate.
  - destruct (Hkey k eq_refl) as [Hmiss Hpe].
    destruct Hkeys as [Hwf|]; [|contradiction].
    rewrite (well_formed_no_key_missing _ Hwf) in Hmiss. discriminate.
Qed.

(** ** The rows of the table *)







Lemma transitions_in_place b s : spec_transitions b b s s = [].
Proof.
  unfold spec_transitions.
  destruct (no_row_in_place b s) as (-> & -> & -> & ->).
  now destruct b.
Qed.

(** C8: a request that sends the status the record already holds, and nothing
    else, adds no timeline entry, changes no access level, leaves the public
    flag and the fields of the record as they are and sends no message.  From
    an administrator it goes through and returns the record; from any other
    user it raises [AccessException], since it is not the
    construction -> requested change. *)
Theorem resubmitted_status e w s :
  c_status (current (stored w)) = Some s ->
  exists r w',
    PUT (only_status s) e w = (r, w') /\
    r = (if is_admin (user e) then Ok (current (stored w'))
         else Raise AccessException) /\
    timeline (stored w') = timeline (stored w) /\
    access (stored w') = access (stored w) /\
    public (stored w') = public (stored w) /\
    outbox w' = outbox w /\
    c_enabled (current (stored w')) = c_enabled (current (stored w)) /\
    c_status (current (stored w')) = Some s /\
    c_enableUserId (current (stored w')) = c_enableUserId (current (stored w)) /\
    c_requestUserId (current (stored w')) = c_requestUserId (current (stored w)) /\
    c_reviewUserId (current (stored w')) = c_reviewUserId (current (stored w)).
Proof.
  intros Hs. destruct (is_admin (user e)) eqn:Hu.
  - assert (Hperm : permitted (user e) (only_status s) (stored w) = true)
      by (unfold permitted; cbn; now rewrite Hu).
    assert (Hmail : mail_ok e (only_status s) (stored w)).
    { destruct (no_row_in_place (next_enabled (only_status s) (stored w))
                  (Some s)) as (H1 & H2 & H3 & _).
      apply mail_ok_no_row; unfold next_status;
        cbn [only_status p_status over_key]; rewrite Hs; assumption. }
    destruct (PUT_permitted _ e w Hperm (or_intror eq_refl)
                (or_introl (is_admin_logged_in _ Hu)) Hmail) as (c & w' & Hrun).
    pose proof (PUT_ok_current _ _ _ _ _ Hrun) as Hc.
    pose proof (is_enabled_after _ _ _ _ _ Hrun) as Hen.
    destruct (PUT_ok _ _ _ _ _ Hrun)
      as (_ & _ & _ & Hce & Hcs & Heu & Hqu & Hvu & Hpub & Hacc & Hout).
    destruct (PUT_ok_timeline _ _ _ _ _ Hrun) as (added & Htl & Htext & _).
    cbn in Hce, Hcs.
    assert (Hsame : is_enabled (stored w') = is_enabled (stored w))
      by (rewrite Hen, Hce; reflexivity).
    unfold fired in Htext.
    rewrite Hc, Hcs, Hs, Hsame in *.
    rewrite transitions_in_place in Htext.
    destruct (no_row_in_place (is_enabled (stored w)) (Some s))
      as (H1 & H2 & H3 & H4).
    rewrite enabling_same, H1, H2, H3, H4 in *. cbn in Hpub, Hacc, Hout, Hvu.
    destruct added; [|discriminate Htext]. rewrite app_nil_r in Htl, Hout.
    exists (Ok c), w'. rewrite Hc. repeat split; assumption.
  - assert (Hperm : permitted (user e) (only_status s) (stored w) = false).
    { unfold permitted. cbn. rewrite Hu, Hs. cbn.
      destruct (String.eqb_spec s CONSTRUCTION) as [->|]; reflexivity. }
    destruct (PUT_denied _ e w Hperm) as (w' & Hrun & _).
    destruct (PUT_raise _ _ _ _ _ Hrun) as (Hst & Hout & _).
    exists (Raise AccessException), w'. rewrite Hst. repeat split; assumption.
Qed.

Lemma resubmitted_status_witness :
  exists r w',
    PUT (only_status REQUESTED) as_alice requested_world = (r, w') /\
    r = (if is_admin (user as_alice) then Ok (current (stored w'))
         else Raise AccessException) /\
    timeline (stored w') = timeline (stored requested_world) /\
    access (stored w') = access (stored requested_world) /\
    public (stored w') = public (stored requested_world) /\
    outbox w' = outbox requested_world /\
    c_enabled (current (stored w'))
      = c_enabled (current (stored requested_world)) /\
    c_status (current (stored w')) = Some REQUESTED /\
    c_enableUserId (current (stored w'))
      = c_enableUserId (current (stored requested_world)) /\
    c_requestUserId (current (stored w'))
      = c_requestUserId (current (stored requested_world)) /\
    c_reviewUserId (current (stored w'))
      = c_reviewUserId (current (stored requested_world)).
Proof.
  refine (resubmitted_status as_alice requested_world REQUESTED _).
  reflexivity.
Defined.

(** C10: when an administrator disables curation on a record that has it
    enabled, the status, [requestUserId], [reviewUserId], the folder's public
    flag and its access lists stay as they are, no message is sent, and the
    timeline gets one entry, "disabled curation".  When an administrator
    enables it again, the status and [requestUserId] are still the ones from
    before the disabling: a pending request survives. *)
Theorem disable_keeps_request e1 e2 w s :
  is_admin (user e1) = true ->
  is_admin (user e2) = true ->
  c_enabled (current (stored w)) = Some true ->
  c_status (current (stored w)) = Some s ->
  exists c1 w1 entry c2 w2,
    PUT (only_enabled false) e1 w = (Ok c1, w1) /\
    current (stored w1) = c1 /\
    c_enabled c1 = Some false /\
    c_status c1 = Some s /\
    c_requestUserId c1 = c_requestUserId (current (stored w)) /\
    c_reviewUserId c1 = c_reviewUserId (current (stored w)) /\
    public (stored w1) = public (stored w) /\
    access (stored w1) = access (stored w) /\
    timeline (stored w1) = timeline (stored w) ++ [entry] /\
    e_text entry = "disabled curation" /\
    outbox w1 = outbox w /\
    PUT (only_enabled true) e2 w1 = (Ok c2, w2) /\
    c_enabled c2 = Some true /\
    c_status c2 = Some s /\
    c_requestUserId c2 = c_requestUserId (current (stored w)).
Proof.
  intros Ha1 Ha2 He Hs.
  destruct (user e1) as [u1|] eqn:Hu1; [|discriminate Ha1].
  destruct (user e2) as [u2|] eqn:Hu2; [|discriminate Ha2].
  cbn in Ha1, Ha2.
  destruct (PUT_only_enabled e1 w u1 false true s Hu1 Ha1 He Hs)
    as (c1 & w1 & Hrun1 & Hc1 & He1 & Hs1 & _ & Hq1 & Hv1 & Hpub1 & Hacc1
        & Hout1 & added & Htl1 & Htext1).
  cbn in Hpub1, Htext1.
  destruct added as [|entry [|? ?]]; try discriminate Htext1.
  pose proof He1 as He1'. pose proof Hs1 as Hs1'. rewrite <- Hc1 in He1', Hs1'.
  destruct (PUT_only_enabled e2 w1 u2 true false s Hu2 Ha2 He1' Hs1')
    as (c2 & w2 & Hrun2 & _ & He2 & Hs2 & _ & Hq2 & _).
  rewrite Hc1, Hq1 in Hq2.
  exists c1, w1, entry, c2, w2. repeat split; try assumption.
  now inversion Htext1.
Qed.

Lemma disable_keeps_request_witness :
  exists c1 w1 entry c2 w2,
    PUT (only_enabled false) as_alice requested_world = (Ok c1, w1) /\
    current (stored w1) = c1 /\
    c_enabled c1 = Some false /\
    c_status c1 = Some REQUESTED /\
    c_requestUserId c1 = c_requestUserId (current (stored requested_world)) /\
    c_reviewUserId c1 = c_reviewUserId (current (stored requested_world)) /\
    public (stored w1) = public (stored requested_world) /\
    access (stored w1) = access (stored requested_world) /\
    timeline (stored w1) = timeline (stored requested_world) ++ [entry] /\
    e_text entry = "disabled curation" /\
    outbox w1 = outbox requested_world /\
    PUT (only_enabled true) as_alice w1 = (Ok c2, w2) /\
    c_enabled c2 = Some true /\
    c_status c2 = Some REQUESTED /\
    c_requestUserId c2 = c_requestUserId (current (stored requested_world)).
Proof.
  refine (disable_keeps_request as_alice as_alice requested_world REQUESTED
            _ _ _ _); reflexivity.
Defined.

(** * Further properties of the handlers *)

(** ** Failure *)

(** X1: a request that raises, whatever the exception, has saved nothing and
    sent nothing: [save] is the last step of [setCuration] and every message
    follows the lookup of its address.  A request that raises
    [AccessException] or [KeyError] has not read the clock either: an
    [_addTimeline] that fails is the first one of the request. *)
Theorem failed_request_changes_nothing p e w x w' :
  PUT p e w = (Raise x, w') ->
  stored w' = stored w /\ outbox w' = outbox w /\
  (x <> AttributeError -> ticks w' = ticks w).
Proof. apply PUT_raise. Qed.

Lemma failed_request_changes_nothing_witness :
  stored (after (only_enabled true) as_alice broken_world) = stored broken_world /\
  outbox (after (only_enabled true) as_alice broken_world) = outbox broken_world /\
  (KeyError STATUS <> AttributeError ->
   ticks (after (only_enabled true) as_alice broken_world) = ticks broken_world).
Proof.
  refine (failed_request_changes_nothing (only_enabled true) as_alice
            broken_world (KeyError STATUS)
            (after (only_enabled true) as_alice broken_world) _).
  vm_compute. reflexivity.
Defined.

(** ** Invariants of the stored record *)

Lemma well_formed_keys f :
  well_formed f <->
  exists b s, c_enabled (current f) = Some b /\ c_status (current f) = Some s.
Proof.
  unfold well_formed. split.
  - intros [He Hs]. destruct (c_enabled (current f)) as [b|]; [|congruence].
    destruct (c_status (current f)) as [s|]; [|congruence]. eauto.
  - intros (b & s & -> & ->). split; discriminate.
Qed.

Lemma over_key_Some {A} (o b : option A) : b <> None -> over_key o b <> None.
Proof. destruct o; cbn; congruence. Qed.

(** Whatever a request does, a record that has the keys [enabled] and
    [status] keeps them. *)
Lemma PUT_well_formed p e w :
  well_formed (stored w) -> well_formed (stored (after p e w)).
Proof.
  intros [He Hs]. destruct (PUT p e w) as [[c|x] w'] eqn:Hrun;
    rewrite (after_run _ _ _ _ _ Hrun).
  - destruct (PUT_ok _ _ _ _ _ Hrun) as (_ & _ & _ & Hce & Hcs & _).
    unfold well_formed. rewrite (PUT_ok_current _ _ _ _ _ Hrun), Hce, Hcs.
    split; now apply over_key_Some.
  - destruct (PUT_raise _ _ _ _ _ Hrun) as (-> & _). now split.
Qed.

(** A row of the table that matches shows in the list of transitions. *)
Lemma no_row_fired oe en os s :
  spec_transitions oe en os s = [] ->
  enabling oe en = false /\ disabling oe en = false /\
  requesting en os s = false /\ approving en os s = false /\
  rejecting en os s = false /\ reopening en os s = false.
Proof.
  unfold spec_transitions.
  destruct (enabling oe en), (disabling oe en), (requesting en os s),
    (approving en os s), (rejecting en os s), (reopening en os s);
    cbn; intros H; try discriminate H; repeat split.
Qed.

(** The user ids of the record after a request that went through: the
    caller's, who was logged in, or the old ones. *)
Lemma PUT_ok_ids p e w c w' :
  PUT p e w = (Ok c, w') ->
  (exists u,
     user e = Some u /\
     (c_enableUserId c = Some (u_id u) \/
      c_enableUserId c = c_enableUserId (current (stored w))) /\
     (c_requestUserId c = Some (u_id u) \/
      c_requestUserId c = c_requestUserId (current (stored w))) /\
     (c_reviewUserId c = Some (u_id u) \/
      c_reviewUserId c = c_reviewUserId (current (stored w)))) \/
  (fired (stored w) (stored w') = [] /\
   c_enableUserId c = c_enableUserId (current (stored w)) /\
   c_requestUserId c = c_requestUserId (current (stored w)) /\
   c_reviewUserId c = c_reviewUserId (current (stored w))).
Proof.
  intros Hrun.
  pose proof (PUT_ok_current _ _ _ _ _ Hrun) as Hc.
  destruct (PUT_ok _ _ _ _ _ Hrun) as (_ & _ & _ & _ & _ & Heu & Hq & Hv & _).
  destruct (PUT_ok_users _ _ _ _ _ Hrun) as (_ & _ & Hin).
  destruct (fired (stored w) (stored w')) as [|t l] eqn:Hf.
  - right. unfold fired in Hf. rewrite Hc in Hf.
    destruct (no_row_fired _ _ _ _ Hf) as (H1 & _ & H3 & H4 & H5 & _).
    rewrite H1 in Heu. rewrite H3 in Hq. rewrite H4, H5 in Hv. auto.
  - left. destruct (user e) as [u|]; [|exfalso; apply Hin; [discriminate|reflexivity]].
    exists u. split; [reflexivity|]. cbn [option_map] in Heu, Hq, Hv.
    rewrite Heu, Hq, Hv. repeat split;
      match goal with |- context [if ?b then _ else _] => destruct b end; auto.
Qed.

Lemma PUT_enabler_known p e w :
  enabler_known (stored w) -> enabler_known (stored (after p e w)).
Proof.
  intros Hinv. destruct (PUT p e w) as [[c|x] w'] eqn:Hrun;
    rewrite (after_run _ _ _ _ _ Hrun).
  - pose proof (PUT_ok_current _ _ _ _ _ Hrun) as Hc.
    pose proof (is_enabled_after _ _ _ _ _ Hrun) as Hen.
    destruct (PUT_ok _ _ _ _ _ Hrun) as (_ & _ & _ & _ & _ & Heu & _).
    unfold enabler_known. rewrite Hc. intros Hon. rewrite Hon in Heu.
    destruct (PUT_ok_ids _ _ _ _ _ Hrun)
      as [(u & Hu & _) | (Hf & Ha & _)].
    + rewrite Hu in Heu. cbn [option_map] in Heu. rewrite Heu.
      unfold enabling.
      destruct (is_enabled (stored w)) eqn:Hold; cbn; [auto | discriminate].
    + unfold fired in Hf.
      destruct (no_row_fired _ _ _ _ Hf) as (H1 & _).
      rewrite Hon in H1. unfold enabling in H1.
      destruct (is_enabled (stored w)) eqn:Hold; [|discriminate H1].
      rewrite Ha. auto.
  - destruct (PUT_raise _ _ _ _ _ Hrun) as (-> & _). assumption.
Qed.

Lemma reachable_invariant w :
  reachable w -> well_formed (stored w) /\ enabler_known (stored w).
Proof.
  induction 1 as [w Hnew | p e w _ [IHwf IHen]].
  - unfold well_formed, enabler_known, is_enabled, current. rewrite Hnew. cbn.
    repeat split; discriminate.
  - split; [now apply PUT_well_formed | now apply PUT_enabler_known].
Qed.

(** X2: on every folder that only the plugin has written, the record has its
    [enabled] and [status] keys, and if curation is enabled the record names
    the user who enabled it, so that a request for approval has an
    addressee. *)
Theorem reachable_record w :
  reachable w ->
  well_formed (stored w) /\
  (is_enabled (stored w) = true -> c_enableUserId (current (stored w)) <> None).
Proof. apply reachable_invariant. Qed.

Lemma reachable_record_witness :
  well_formed (stored requested_world) /\
  (is_enabled (stored requested_world) = true ->
   c_enableUserId (current (stored requested_world)) <> None).
Proof.
  apply (reachable_record requested_world).
  unfold requested_world, enabled_world.
  do 2 apply reachable_PUT. apply reachable_new. reflexivity.
Defined.

(** X3: on such a folder [setCuration] never raises [KeyError].  A request
    that is not [permitted] raises [AccessException].  A permitted one goes
    through when the caller is logged in, or no row of the table fires, and
    the addressees of its messages have their user documents; when it does
    not go through it raises [AttributeError], and then the caller is not
    logged in while a row fires, or a document is missing. *)
Theorem reachable_request_outcome p e w :
  reachable w ->
  (forall k w', PUT p e w <> (Raise (KeyError k), w')) /\
  (permitted (user e) p (stored w) = false ->
   exists w', PUT p e w = (Raise AccessException, w')) /\
  (permitted (user e) p (stored w) = true ->
   user e <> None \/ planned p (stored w) = [] ->
   mail_ok e p (stored w) ->
   exists c w', PUT p e w = (Ok c, w')) /\
  (permitted (user e) p (stored w) = true ->
   forall x w', PUT p e w = (Raise x, w') ->
     x = AttributeError /\
     ((user e = None /\ planned p (stored w) <> []) \/ ~ mail_ok e p (stored w))).
Proof.
  intros Hr. destruct (reachable_invariant w Hr) as [Hwf _].
  repeat split.
  - intros k w' Hrun.
    destruct (PUT_raise_all _ _ _ _ _ Hrun) as (_ & _ & _ & _ & Hkey & _).
    destruct (Hkey k eq_refl) as [Hmiss _].
    rewrite (well_formed_no_key_missing _ Hwf) in Hmiss. discriminate.
  - intros Hperm. destruct (PUT_denied p e w Hperm) as (w' & Hrun & _). eauto.
  - intros Hperm Hin Hmail. now apply PUT_permitted; [|left| |].
  - destruct (PUT_permitted_raise _ _ _ _ _ H0 H (or_introl Hwf)) as (-> & _).
    reflexivity.
  - destruct (PUT_permitted_raise _ _ _ _ _ H0 H (or_introl Hwf)) as (-> & _).
    destruct (PUT_raise_all _ _ _ _ _ H0) as (_ & _ & _ & _ & _ & Hattr).
    exact (Hattr eq_refl).
Qed.

Lemma reachable_request_outcome_witness :
  (exists w',
     PUT (only_status APPROVED) as_bob requested_world
       = (Raise AccessException, w')) /\
  (exists c w',
     PUT (only_status APPROVED) as_alice requested_world = (Ok c, w')). 
Proof.
  assert (Hr : reachable requested_world).
  { unfold requested_world, enabled_world.
    do 2 apply reachable_PUT. apply reachable_new. reflexivity. }
  split.
  - refine (proj1 (proj2 (reachable_request_outcome (only_status APPROVED)
                            as_bob requested_world Hr)) _).
    reflexivity.
  - refine (proj1 (proj2 (proj2 (reachable_request_outcome
                                   (only_status APPROVED) as_alice
                                   requested_world Hr))) _ _ _).
    + reflexivity.
    + left. discriminate.
    + vm_compute. split; intros; discriminate.
Defined.

(** X4: no request that goes through clears [enableUserId] or [requestUserId]:
    once set, they stay set. *)
Theorem user_ids_never_cleared p e w c w' :
  PUT p e w = (Ok c, w') ->
  (c_enableUserId (current (stored w)) <> None -> c_enableUserId c <> None) /\
  (c_requestUserId (current (stored w)) <> None -> c_requestUserId c <> None) /\
  (c_reviewUserId (current (stored w)) <> None -> c_reviewUserId c <> None).
Proof.
  intros Hrun.
  destruct (PUT_ok_ids _ _ _ _ _ Hrun)
    as [(u & _ & [->| ->] & [->| ->] & [->| ->]) | (_ & -> & -> & ->)];
    repeat split; intros H; congruence.
Qed.

Lemma user_ids_never_cleared_witness :
  (c_enableUserId (current (stored requested_world)) <> None ->
   c_enableUserId (current (stored approved_world)) <> None) /\
  (c_requestUserId (current (stored requested_world)) <> None ->
   c_requestUserId (current (stored approved_world)) <> None) /\
  (c_reviewUserId (current (stored requested_world)) <> None ->
   c_reviewUserId (current (stored approved_world)) <> None).
Proof.
  refine (user_ids_never_cleared (only_status APPROVED) as_alice requested_world
            (current (stored approved_world)) approved_world _).
  vm_compute. reflexivity.
Defined.

(** ** The other rows of the table *)

Lemma singleton_text (l : list TimelineEntry) t :
  map e_text l = [t] -> exists x, l = [x] /\ e_text x = t.
Proof.
  destruct l as [|x [|? ?]]; cbn; intros H; try discriminate H.
  exists x. split; [reflexivity | now inversion H].
Qed.

(** X5, enabling (lines 100-106): when an administrator enables curation on a
    record that has it disabled, the folder stops being public, the record
    names the administrator as [enableUserId], the timeline gets one entry,
    "enabled curation", and nothing else changes: status, access lists,
    outbox. *)
Theorem enable_curation e w u s :
  user e = Some u ->
  u_admin u = true ->
  c_enabled (current (stored w)) = Some false ->
  c_status (current (stored w)) = Some s ->
  exists c w' entry,
    PUT (only_enabled true) e w = (Ok c, w') /\
    current (stored w') = c /\
    c_enabled c = Some true /\
    c_status c = Some s /\
    c_enableUserId c = Some (u_id u) /\
    public (stored w') = false /\
    access (stored w') = access (stored w) /\
    timeline (stored w') = timeline (stored w) ++ [entry] /\
    e_text entry = "enabled curation" /\
    outbox w' = outbox w.
Proof.
  intros Hu Hadm He Hs.
  destruct (PUT_only_enabled e w u true false s Hu Hadm He Hs)
    as (c & w' & Hrun & Hc & He' & Hs' & Heu & _ & _ & Hpub & Hacc & Hout
        & added & Htl & Htext).
  cbn in Heu, Hpub, Htext.
  destruct (singleton_text _ _ Htext) as (entry & -> & Hentry).
  exists c, w', entry. repeat split; assumption.
Qed.

Lemma enable_curation_witness :
  exists c w' entry,
    PUT (only_enabled true) as_alice start = (Ok c, w') /\
    current (stored w') = c /\
    c_enabled c = Some true /\
    c_status c = Some CONSTRUCTION /\
    c_enableUserId c = Some (u_id alice) /\
    public (stored w') = false /\
    access (stored w') = access (stored start) /\
    timeline (stored w') = timeline (stored start) ++ [entry] /\
    e_text entry = "enabled curation" /\
    outbox w' = outbox start.
Proof.
  refine (enable_curation as_alice start alice CONSTRUCTION _ _ _ _);
    reflexivity.
Defined.

(** X6, approval (lines 123-132): when an administrator approves a request on
    a record with curation enabled whose requesting user, if it names one,
    has a document in the user collection, the folder becomes public, the
    record names the administrator as [reviewUserId] and keeps its
    [requestUserId], the access lists stay as the request left them, the
    timeline gets one entry, "approved request", and one message goes to the
    address of the requesting user, or none when the record names no
    requesting user. *)
Theorem approve_request e w u :
  user e = Some u ->
  u_admin u = true ->
  c_enabled (current (stored w)) = Some true ->
  c_status (current (stored w)) = Some REQUESTED ->
  deliverable e (c_requestUserId (current (stored w))) ->
  exists c w' entry,
    PUT (only_status APPROVED) e w = (Ok c, w') /\
    current (stored w') = c /\
    c_status c = Some APPROVED /\
    c_reviewUserId c = Some (u_id u) /\
    c_requestUserId c = c_requestUserId (current (stored w)) /\
    public (stored w') = true /\
    access (stored w') = access (stored w) /\
    timeline (stored w') = timeline (stored w) ++ [entry] /\
    e_text entry = "approved request" /\
    match c_requestUserId (current (stored w)) with
    | Some uid =>
        exists account,
          load_user e uid = Some account /\
          outbox w' =
            outbox w ++
            [mkMail [u_email account] ("APPROVED: " ++ name (stored w))%string
               "curation.approved.mako"]
    | None => outbox w' = outbox w
    end.
Proof.
  intros Hu Hadm He Hs Hdel.
  assert (Hp : permitted (user e) (only_status APPROVED) (stored w) = true)
    by (unfold permitted; rewrite Hu; cbn; now rewrite Hadm).
  assert (Hm : mail_ok e (only_status APPROVED) (stored w)).
  { apply (mail_ok_only_status e _ REQUESTED APPROVED He Hs);
      [discriminate | intros _; exact Hdel]. }
  destruct (PUT_only_status e w u REQUESTED APPROVED Hu Hp He Hs Hm)
    as (c & w' & Hrun & Hc & _ & Hs' & _ & Hq & Hv & Hpub & Hacc & Hout
        & added & Htl & Htext).
  cbn in Hq, Hv, Hpub, Hacc, Hout, Htext. rewrite Hq in Hout.
  destruct (singleton_text _ _ Htext) as (entry & -> & Hentry).
  exists c, w', entry. repeat split; try assumption.
  unfold notify in Hout. unfold deliverable in Hdel.
  destruct (c_requestUserId (current (stored w))) as [uid|].
  - destruct (load_user e uid) as [account|]; [|contradiction].
    exists account. split; [reflexivity | exact Hout].
  - rewrite app_nil_r in Hout. exact Hout.
Qed.

Lemma approve_request_witness :
  exists c w' entry,
    PUT (only_status APPROVED) as_alice requested_world = (Ok c, w') /\
    current (stored w') = c /\
    c_status c = Some APPROVED /\
    c_reviewUserId c = Some (u_id alice) /\
    c_requestUserId c = c_requestUserId (current (stored requested_world)) /\
    public (stored w') = true /\
    access (stored w') = access (stored requested_world) /\
    timeline (stored w') = timeline (stored requested_world) ++ [entry] /\
    e_text entry = "approved request" /\
    match c_requestUserId (current (stored requested_world)) with
    | Some uid =>
        exists account,
          load_user as_alice uid = Some account /\
          outbox w' =
            outbox requested_world ++
            [mkMail [u_email account]
               ("APPROVED: " ++ name (stored requested_world))%string
               "curation.approved.mako"]
    | None => outbox w' = outbox requested_world
    end.
Proof.
  refine (approve_request as_alice requested_world alice _ _ _ _ _).
  - reflexivity.
  - reflexivity.
  - reflexivity.
  - reflexivity.
  - vm_compute. discriminate.
Defined.

(** X7, rejection (lines 134-143): when an administrator sends a requested
    record back to construction, and the requesting user, if the record
    names one, has a document in the user collection, the record names the
    administrator as [reviewUserId] and keeps its [requestUserId], every
    entry of the access lists at READ goes to WRITE and the others stay, the
    public flag stays, the timeline gets one entry, "rejected request", and
    one message goes to the address of the requesting user, or none when the
    record names no requesting user. *)
Theorem reject_request e w u :
  user e = Some u ->
  u_admin u = true ->
  c_enabled (current (stored w)) = Some true ->
  c_status (current (stored w)) = Some REQUESTED ->
  deliverable e (c_requestUserId (current (stored w))) ->
  exists c w' entry,
    PUT (only_status CONSTRUCTION) e w = (Ok c, w') /\
    current (stored w') = c /\
    c_status c = Some CONSTRUCTION /\
    c_reviewUserId c = Some (u_id u) /\
    c_requestUserId c = c_requestUserId (current (stored w)) /\
    public (stored w') = public (stored w) /\
    Forall2 upgraded (users (access (stored w))) (users (access (stored w'))) /\
    Forall2 upgraded (groups (access (stored w))) (groups (access (stored w'))) /\
    timeline (stored w') = timeline (stored w) ++ [entry] /\
    e_text entry = "rejected request" /\
    match c_requestUserId (current (stored w)) with
    | Some uid =>
        exists account,
          load_user e uid = Some account /\
          outbox w' =
            outbox w ++
            [mkMail [u_email account] ("REJECTED: " ++ name (stored w))%string
               "curation.rejected.mako"]
    | None => outbox w' = outbox w
    end.
Proof.
  intros Hu Hadm He Hs Hdel.
  assert (Hp : permitted (user e) (only_status CONSTRUCTION) (stored w) = true)
    by (unfold permitted; rewrite Hu; cbn; now rewrite Hadm).
  assert (Hm : mail_ok e (only_status CONSTRUCTION) (stored w)).
  { apply (mail_ok_only_status e _ REQUESTED CONSTRUCTION He Hs);
      [discriminate | intros _; exact Hdel]. }
  destruct (PUT_only_status e w u REQUESTED CONSTRUCTION Hu Hp He Hs Hm)
    as (c & w' & Hrun & Hc & _ & Hs' & _ & Hq & Hv & Hpub & Hacc & Hout
        & added & Htl & Htext).
  cbn in Hq, Hv, Hpub, Hacc, Hout, Htext. rewrite Hq in Hout.
  destruct (singleton_text _ _ Htext) as (entry & -> & Hentry).
  exists c, w', entry. rewrite Hacc.
  repeat split; auto using Forall2_writeable.
  unfold notify in Hout. unfold deliverable in Hdel.
  destruct (c_requestUserId (current (stored w))) as [uid|].
  - destruct (load_user e uid) as [account|]; [|contradiction].
    exists account. split; [reflexivity | exact Hout].
  - rewrite app_nil_r in Hout. exact Hout.
Qed.

Lemma reject_request_witness :
  exists c w' entry,
    PUT (only_status CONSTRUCTION) as_alice requested_world = (Ok c, w') /\
    current (stored w') = c /\
    c_status c = Some CONSTRUCTION /\
    c_reviewUserId c = Some (u_id alice) /\
    c_requestUserId c = c_requestUserId (current (stored requested_world)) /\
    public (stored w') = public (stored requested_world) /\
    Forall2 upgraded (users (access (stored requested_world)))
      (users (access (stored w'))) /\
    Forall2 upgraded (groups (access (stored requested_world)))
      (groups (access (stored w'))) /\
    timeline (stored w') = timeline (stored requested_world) ++ [entry] /\
    e_text entry = "rejected request" /\
    match c_requestUserId (current (stored requested_world)) with
    | Some uid =>
        exists account,
          load_user as_alice uid = Some account /\
          outbox w' =
            outbox requested_world ++
            [mkMail [u_email account]
               ("REJECTED: " ++ name (stored requested_world))%string
               "curation.rejected.mako"]
    | None => outbox w' = outbox requested_world
    end.
Proof.
  refine (reject_request as_alice requested_world alice _ _ _ _ _).
  - reflexivity.
  - reflexivity.
  - reflexivity.
  - reflexivity.
  - vm_compute. discriminate.
Defined.

(** ** Access levels across a request *)

Lemma Forall2_promoted l : Forall2 promoted l (map writeable (map readOnly l)).
Proof.
  induction l as [|[i []] l IH]; cbn; constructor; auto; split; reflexivity.
Qed.

Lemma readOnly_no_writer l : Forall (fun d => level d <> WRITE) (map readOnly l).
Proof.
  induction l as [|[i []] l IH]; cbn; constructor; auto; discriminate.
Qed.

Lemma request_permitted u f :
  c_status (current f) = Some CONSTRUCTION ->
  permitted u (only_status REQUESTED) f = true.
Proof. intros Hs. unfold permitted. cbn. rewrite Hs. apply orb_true_r. Qed.

(** A status parameter alone that went through, on a record with curation
    enabled: the record and the access lists it leaves. *)
Lemma PUT_ok_only_status e w c w' s0 s1 :
  PUT (only_status s1) e w = (Ok c, w') ->
  c_enabled (current (stored w)) = Some true ->
  c_status (current (stored w)) = Some s0 ->
  current (stored w') = c /\
  c_enabled c = Some true /\
  c_status c = Some s1 /\
  access (stored w') =
    (if requesting true (Some s0) (Some s1)
     then for_docs readOnly (access (stored w))
     else if rejecting true (Some s0) (Some s1)
             || reopening true (Some s0) (Some s1)
     then for_docs writeable (access (stored w))
     else access (stored w)).
Proof.
  intros Hrun He Hs.
  pose proof (PUT_ok_current _ _ _ _ _ Hrun) as Hc.
  pose proof (is_enabled_after _ _ _ _ _ Hrun) as Hen.
  destruct (PUT_ok _ _ _ _ _ Hrun)
    as (_ & _ & _ & Hce & Hcs & _ & _ & _ & _ & Hacc & _).
  cbn in Hce, Hcs. rewrite He in Hce. rewrite Hce in Hen. cbn in Hen.
  rewrite Hen, Hs, Hcs in Hacc. auto.
Qed.

(** X8: after a request for approval went through, no user and no group of the
    folder is at WRITE level, and the lists have the entries they had, in the
    same order. *)
Theorem request_leaves_no_writer e w c w' :
  c_enabled (current (stored w)) = Some true ->
  c_status (current (stored w)) = Some CONSTRUCTION ->
  PUT (only_status REQUESTED) e w = (Ok c, w') ->
  Forall (fun d => level d <> WRITE)
    (users (access (stored w')) ++ groups (access (stored w'))) /\
  map id (users (access (stored w'))) = map id (users (access (stored w))) /\
  map id (groups (access (stored w'))) = map id (groups (access (stored w))).
Proof.
  intros He Hs Hrun.
  destruct (PUT_ok_only_status _ _ _ _ _ _ Hrun He Hs) as (_ & _ & _ & Hacc).
  cbn in Hacc. rewrite Hacc. cbn. repeat split.
  - apply Forall_app. split; apply readOnly_no_writer.
  - rewrite map_map. apply map_ext. intros [i []]; reflexivity.
  - rewrite map_map. apply map_ext. intros [i []]; reflexivity.
Qed.

Lemma request_leaves_no_writer_witness :
  Forall (fun d => level d <> WRITE)
    (users (access (stored requested_world))
     ++ groups (access (stored requested_world))) /\
  map id (users (access (stored requested_world)))
    = map id (users (access (stored enabled_world))) /\
  map id (groups (access (stored requested_world)))
    = map id (groups (access (stored enabled_world))).
Proof.
  refine (request_leaves_no_writer as_bob enabled_world
            (current (stored requested_world)) requested_world _ _ _).
  - reflexivity.
  - reflexivity.
  - vm_compute. reflexivity.
Defined.

(** X9: a request followed by a rejection is no round trip on the access
    lists: when both go through, on a record with curation enabled and under
    construction, the status is back at construction, but every entry that
    was at READ before the request is at WRITE after the rejection, like
    those that were at WRITE; entries at NONE and ADMIN are as they were.
    Both go through when the requester is logged in, the reviewer is an
    administrator, and the user who enabled curation and the requester have
    their user documents. *)
Theorem request_then_reject_promotes_readers e1 e2 w :
  c_enabled (current (stored w)) = Some true ->
  c_status (current (stored w)) = Some CONSTRUCTION ->
  (forall c1 w1 c2 w2,
     PUT (only_status REQUESTED) e1 w = (Ok c1, w1) ->
     PUT (only_status CONSTRUCTION) e2 w1 = (Ok c2, w2) ->
     c_status c2 = Some CONSTRUCTION /\
     Forall2 promoted (users (access (stored w))) (users (access (stored w2))) /\
     Forall2 promoted (groups (access (stored w))) (groups (access (stored w2)))) /\
  (forall u1,
     user e1 = Some u1 ->
     is_admin (user e2) = true ->
     deliverable e1 (c_enableUserId (current (stored w))) ->
     load_user e2 (u_id u1) <> None ->
     exists c1 w1 c2 w2,
       PUT (only_status REQUESTED) e1 w = (Ok c1, w1) /\
       PUT (only_status CONSTRUCTION) e2 w1 = (Ok c2, w2)).
Proof.
  intros He Hs. split.
  - intros c1 w1 c2 w2 Hrun1 Hrun2.
    destruct (PUT_ok_only_status _ _ _ _ _ _ Hrun1 He Hs)
      as (Hc1 & He1 & Hs1 & Hacc1).
    cbn in Hacc1. rewrite <- Hc1 in He1, Hs1.
    destruct (PUT_ok_only_status _ _ _ _ _ _ Hrun2 He1 Hs1)
      as (_ & _ & Hs2 & Hacc2).
    cbn in Hacc2. rewrite Hacc1 in Hacc2. rewrite Hacc2.
    repeat split; auto using Forall2_promoted.
  - intros u1 Hu1 Ha2 Hdel1 Hdel2.
    assert (Hm1 : mail_ok e1 (only_status REQUESTED) (stored w)).
    { apply (mail_ok_only_status e1 _ CONSTRUCTION REQUESTED He Hs);
        [intros _; exact Hdel1 | discriminate]. }
    destruct (PUT_only_status e1 w u1 CONSTRUCTION REQUESTED Hu1
                (request_permitted _ _ Hs) He Hs Hm1)
      as (c1 & w1 & Hrun1 & Hc1 & He1 & Hs1 & _ & Hq1 & _).
    cbn in Hq1. rewrite <- Hc1 in He1, Hs1, Hq1.
    destruct (user e2) as [u2|] eqn:Hu2; [|discriminate Ha2].
    assert (Hp2 : permitted (user e2) (only_status CONSTRUCTION) (stored w1) = true)
      by (unfold permitted; rewrite Hu2; cbn; cbn in Ha2; now rewrite Ha2).
    assert (Hm2 : mail_ok e2 (only_status CONSTRUCTION) (stored w1)).
    { apply (mail_ok_only_status e2 _ REQUESTED CONSTRUCTION He1 Hs1);
        [discriminate | intros _; rewrite Hq1; exact Hdel2]. }
    destruct (PUT_only_status e2 w1 u2 REQUESTED CONSTRUCTION Hu2 Hp2 He1 Hs1 Hm2)
      as (c2 & w2 & Hrun2 & _).
    exists c1, w1, c2, w2. auto.
Qed.

Lemma request_then_reject_promotes_readers_witness :
  (c_status (current (stored
      (after (only_status CONSTRUCTION) as_alice requested_world)))
     = Some CONSTRUCTION /\
   Forall2 promoted (users (access (stored enabled_world)))
     (users (access (stored
        (after (only_status CONSTRUCTION) as_alice requested_world)))) /\
   Forall2 promoted (groups (access (stored enabled_world)))
     (groups (access (stored
        (after (only_status CONSTRUCTION) as_alice requested_world))))) /\
  (exists c1 w1 c2 w2,
     PUT (only_status REQUESTED) as_bob enabled_world = (Ok c1, w1) /\
     PUT (only_status CONSTRUCTION) as_alice w1 = (Ok c2, w2)).
Proof.
  split.
  - refine (proj1 (request_then_reject_promotes_readers as_bob as_alice
                     enabled_world _ _)
              (current (stored requested_world)) requested_world
              (current (stored
                 (after (only_status CONSTRUCTION) as_alice requested_world)))
              (after (only_status CONSTRUCTION) as_alice requested_world) _ _).
    + reflexivity.
    + reflexivity.
    + vm_compute. reflexivity.
    + vm_compute. reflexivity.
  - refine (proj2 (request_then_reject_promotes_readers as_bob as_alice
                     enabled_world _ _) bob _ _ _ _).
    + reflexivity.
    + reflexivity.
    + reflexivity.
    + reflexivity.
    + vm_compute. discriminate.
    + vm_compute. discriminate.
Defined.

(** ** Changes the table does not list *)

Lemma off_graph_rows s0 s1 :
  graph_edge (Some s0) (Some s1) = false ->
  requesting true (Some s0) (Some s1) = false /\
  approving true (Some s0) (Some s1) = false /\
  rejecting true (Some s0) (Some s1) = false /\
  reopening true (Some s0) (Some s1) = false.
Proof.
  unfold graph_edge, requesting, approving, rejecting, reopening.
  rewrite !orb_false_iff. cbn [andb]. tauto.
Qed.

(** X10: an administrator may move the status along no edge of the graph, for
    instance from construction straight to approved.  With curation enabled
    the new status is stored and nothing else happens: the public flag, the
    access lists, the user ids and the timeline stay as they are and no
    message is sent.  In particular such an approval does not publish the
    folder. *)
Theorem off_graph_status_change e w s0 s1 :
  is_admin (user e) = true ->
  c_enabled (current (stored w)) = Some true ->
  c_status (current (stored w)) = Some s0 ->
  graph_edge (Some s0) (Some s1) = false ->
  exists c w',
    PUT (only_status s1) e w = (Ok c, w') /\
    current (stored w') = c /\
    c_status c = Some s1 /\
    c_enableUserId c = c_enableUserId (current (stored w)) /\
    c_requestUserId c = c_requestUserId (current (stored w)) /\
    c_reviewUserId c = c_reviewUserId (current (stored w)) /\
    public (stored w') = public (stored w) /\
    access (stored w') = access (stored w) /\
    timeline (stored w') = timeline (stored w) /\
    outbox w' = outbox w.
Proof.
  intros Ha He Hs Hedge.
  destruct (user e) as [u|] eqn:Hu; [|discriminate Ha]. cbn in Ha.
  assert (Hp : permitted (user e) (only_status s1) (stored w) = true)
    by (unfold permitted; rewrite Hu; cbn; now rewrite Ha).
  destruct (off_graph_rows s0 s1 Hedge) as (H1 & H2 & H3 & H4).
  assert (Hm : mail_ok e (only_status s1) (stored w)).
  { apply (mail_ok_only_status e _ s0 s1 He Hs).
    - rewrite H1. discriminate.
    - rewrite H2, H3. discriminate. }
  destruct (PUT_only_status e w u s0 s1 Hu Hp He Hs Hm)
    as (c & w' & Hrun & Hc & _ & Hs' & Heu & Hq & Hv & Hpub & Hacc & Hout
        & added & Htl & Htext).
  unfold spec_transitions in Htext.
  rewrite H1, H2, H3, H4 in *. cbn in Hq, Hv, Hpub, Hacc, Hout, Htext.
  destruct added; [|discriminate Htext]. rewrite app_nil_r in Htl, Hout.
  exists c, w'. repeat split; assumption.
Qed.

Lemma off_graph_status_change_witness :
  exists c w',
    PUT (only_status APPROVED) as_alice enabled_world = (Ok c, w') /\
    current (stored w') = c /\
    c_status c = Some APPROVED /\
    c_enableUserId c = c_enableUserId (current (stored enabled_world)) /\
    c_requestUserId c = c_requestUserId (current (stored enabled_world)) /\
    c_reviewUserId c = c_reviewUserId (current (stored enabled_world)) /\
    public (stored w') = public (stored enabled_world) /\
    access (stored w') = access (stored enabled_world) /\
    timeline (stored w') = timeline (stored enabled_world) /\
    outbox w' = outbox enabled_world.
Proof.
  refine (off_graph_status_change as_alice enabled_world CONSTRUCTION APPROVED
            _ _ _ _); reflexivity.
Defined.

(** ** What a user who is no administrator can reach *)

Lemma PUT_ok_permitted p e w c w' :
  PUT p e w = (Ok c, w') -> permitted (user e) p (stored w) = true.
Proof.
  intros Hrun. destruct (permitted (user e) p (stored w)) eqn:Hperm; auto.
  destruct (PUT_denied p e w Hperm) as (w0 & Hrun0 & _). congruence.
Qed.

(** X11: a request of a user who is no administrator that goes through never
    changes the [enabled] flag, the public flag, [enableUserId] or
    [reviewUserId], and never raises an access level: the access lists are
    as they were or rewritten by [_makeReadOnly]. *)
Theorem non_admin_reach p e w c w' :
  is_admin (user e) = false ->
  PUT p e w = (Ok c, w') ->
  c_enabled c = c_enabled (current (stored w)) /\
  public (stored w') = public (stored w) /\
  c_enableUserId c = c_enableUserId (current (stored w)) /\
  c_reviewUserId c = c_reviewUserId (current (stored w)) /\
  (access (stored w') = access (stored w) \/
   access (stored w') = for_docs readOnly (access (stored w))).
Proof.
  intros Hu Hrun.
  pose proof (PUT_ok_permitted _ _ _ _ _ Hrun) as Hperm.
  apply (permitted_non_admin _ _ _ Hu) in Hperm. destruct Hperm as [Hpe Hps].
  pose proof (is_enabled_after _ _ _ _ _ Hrun) as Hen.
  destruct (PUT_ok _ _ _ _ _ Hrun)
    as (_ & _ & _ & Hce & Hcs & Heu & _ & Hv & Hpub & Hacc & _).
  rewrite Hpe in Hce. cbn in Hce.
  assert (Hsame : is_enabled (stored w') = is_enabled (stored w))
    by (rewrite Hen, Hce; reflexivity).
  rewrite Hsame, enabling_same in *.
  assert (Hrows :
    approving (is_enabled (stored w)) (c_status (current (stored w))) (c_status c)
      = false /\
    rejecting (is_enabled (stored w)) (c_status (current (stored w))) (c_status c)
      = false /\
    reopening (is_enabled (stored w)) (c_status (current (stored w))) (c_status c)
      = false).
  { destruct (p_status p) as [s|] eqn:Hp.
    - destruct (Hps s eq_refl) as [Hold ->]. rewrite Hcs, Hold. cbn.
      unfold approving, rejecting, reopening, edge. cbn.
      rewrite !andb_false_r. auto.
    - cbn in Hcs. rewrite Hcs.
      destruct (no_row_in_place (is_enabled (stored w))
                  (c_status (current (stored w)))) as (_ & H2 & H3 & H4).
      auto. }
  destruct Hrows as (H2 & H3 & H4). rewrite H2, H3, H4 in *.
  cbn in Hv, Hpub, Hacc. repeat split; try assumption.
  destruct (requesting _ _ _); auto.
Qed.

Lemma non_admin_reach_witness :
  c_enabled (current (stored requested_world))
    = c_enabled (current (stored enabled_world)) /\
  public (stored requested_world) = public (stored enabled_world) /\
  c_enableUserId (current (stored requested_world))
    = c_enableUserId (current (stored enabled_world)) /\
  c_reviewUserId (current (stored requested_world))
    = c_reviewUserId (current (stored enabled_world)) /\
  (access (stored requested_world) = access (stored enabled_world) \/
   access (stored requested_world)
     = for_docs readOnly (access (stored enabled_world))).
Proof.
  refine (non_admin_reach (only_status REQUESTED) as_bob enabled_world
            (current (stored requested_world)) requested_world _ _).
  - reflexivity.
  - vm_compute. reflexivity.
Defined.

(** ** Two parameters in one request *)

Lemma load_user_self e u : user e = Some u -> load_user e (u_id u) = Some u.
Proof. intros H. unfold load_user. rewrite H, N.eqb_refl. reflexivity. Qed.

(** X12: when an administrator enables curation and asks for approval in one
    request, on a record under construction with curation disabled, both rows
    fire in the order of the handler: the timeline gets "enabled curation"
    then "requested approval", the administrator becomes both [enableUserId]
    and [requestUserId], the folder stops being public, the access lists are
    made read-only, and the one message, the request for approval, goes to
    the administrator who sent the request. *)
Theorem enable_and_request_at_once e w u :
  user e = Some u ->
  u_admin u = true ->
  c_enabled (current (stored w)) = Some false ->
  c_status (current (stored w)) = Some CONSTRUCTION ->
  exists c w' added,
    PUT enable_and_request e w = (Ok c, w') /\
    c_enabled c = Some true /\
    c_status c = Some REQUESTED /\
    c_enableUserId c = Some (u_id u) /\
    c_requestUserId c = Some (u_id u) /\
    public (stored w') = false /\
    access (stored w') = for_docs readOnly (access (stored w)) /\
    timeline (stored w') = timeline (stored w) ++ added /\
    map e_text added = ["enabled curation"; "requested approval"] /\
    outbox w' =
      outbox w ++
      [mkMail [u_email u] ("REQUEST FOR APPROVAL: " ++ name (stored w))%string
         "curation.requested.mako"].
Proof.
  intros Hu Hadm He Hs.
  assert (Hperm : permitted (user e) enable_and_request (stored w) = true)
    by (unfold permitted; rewrite Hu; cbn; now rewrite Hadm).
  assert (Hwf : well_formed (stored w)) by (split; congruence).
  assert (Hin : user e <> None) by (rewrite Hu; discriminate).
  assert (Hold : is_enabled (stored w) = false)
    by (unfold is_enabled; now rewrite He).
  assert (Hmail : mail_ok e enable_and_request (stored w)).
  { unfold mail_ok, next_enabled, next_status. rewrite Hold, He, Hs. cbn.
    split; discriminate. }
  destruct (PUT_permitted _ e w Hperm (or_introl Hwf) (or_introl Hin) Hmail)
    as (c & w' & Hrun).
  pose proof (PUT_ok_current _ _ _ _ _ Hrun) as Hc.
  pose proof (is_enabled_after _ _ _ _ _ Hrun) as Hen.
  destruct (PUT_ok _ _ _ _ _ Hrun)
    as (_ & _ & _ & Hce & Hcs & Heu & Hq & _ & Hpub & Hacc & Hout).
  destruct (PUT_ok_timeline _ _ _ _ _ Hrun) as (added & Htl & Htext & _).
  cbn in Hce, Hcs. rewrite Hce in Hen. cbn in Hen.
  unfold fired in Htext. rewrite Hu in Heu, Hq. cbn [option_map] in Heu, Hq.
  rewrite Hen, Hold, Hs, Hc, Hcs in *.
  cbn in Heu, Hq, Hpub, Hacc, Hout, Htext. rewrite Heu in Hout.
  unfold notify in Hout. rewrite (load_user_self e u Hu) in Hout.
  exists c, w', added. repeat split; assumption.
Qed.

Lemma enable_and_request_at_once_witness :
  exists c w' added,
    PUT enable_and_request as_alice start = (Ok c, w') /\
    c_enabled c = Some true /\
    c_status c = Some REQUESTED /\
    c_enableUserId c = Some (u_id alice) /\
    c_requestUserId c = Some (u_id alice) /\
    public (stored w') = false /\
    access (stored w') = for_docs readOnly (access (stored start)) /\
    timeline (stored w') = timeline (stored start) ++ added /\
    map e_text added = ["enabled curation"; "requested approval"] /\
    outbox w' =
      outbox start ++
      [mkMail [u_email alice]
         ("REQUEST FOR APPROVAL: " ++ name (stored start))%string
         "curation.requested.mako"].
Proof.
  refine (enable_and_request_at_once as_alice start alice _ _ _ _); reflexivity.
Defined.

(** ** Reading after writing *)

(** X13: after a request that went through on a record with its two keys, the read
    route returns the dictionary the write route returned, with the stored
    timeline under the [timeline] key (empty when the record has none), and
    reading changes nothing. *)
Theorem GET_after_PUT p e e' w c w' :
  well_formed (stored w) ->
  PUT p e w = (Ok c, w') ->
  GET e' w' = (Ok (set_timeline (timeline (stored w')) c), w').
Proof.
  intros Hwf Hrun.
  pose proof (PUT_well_formed p e w Hwf) as Hwf'.
  rewrite (after_run _ _ _ _ _ Hrun) in Hwf'.
  destruct (PUT_ok _ _ _ _ _ Hrun) as (_ & Hcur & _).
  unfold well_formed, timeline, current in *. rewrite Hcur in *. cbn in Hwf'.
  unfold GET, getCuration, loadmodel. cbn. rewrite Hcur. cbn.
  destruct Hwf' as [He Hs].
  destruct c as [[b|] [s|] [t|] [u|] [q|] [v|]]; cbn in *;
    try congruence; reflexivity.
Qed.

Lemma GET_after_PUT_witness :
  GET as_bob enabled_world
    = (Ok (set_timeline (timeline (stored enabled_world))
             (current (stored enabled_world))),
       enabled_world).
Proof.
  refine (GET_after_PUT (only_enabled true) as_alice as_bob start
            (current (stored enabled_world)) enabled_world _ _).
  - split; discriminate.
  - vm_compute. reflexivity.
Defined.

(** ** Missing keys, authorship and the clock *)

(** X14: when the stored dictionary lacks its [enabled] or [status] key, an
    administrator's request that changes the [enabled] flag raises [KeyError]
    on the first missing key ([enabled] before [status]), and nothing is
    saved or sent. *)
Theorem missing_key_raises p e w b k :
  is_admin (user e) = true ->
  p_enabled p = Some b ->
  is_enabled (stored w) <> b ->
  first_key_missing (current (stored w)) = Some k ->
  exists w',
    PUT p e w = (Raise (KeyError k), w') /\
    stored w' = stored w /\ outbox w' = outbox w.
Proof.
  intros Hu Hp Hb Hk.
  destruct (PUT_missing_key p e w b k Hu Hp Hb Hk) as (w' & Hrun).
  destruct (PUT_raise _ _ _ _ _ Hrun) as (Hst & Hout & _).
  exists w'. auto.
Qed.

Lemma missing_key_raises_witness :
  exists w',
    PUT (only_enabled true) as_alice broken_world
      = (Raise (KeyError STATUS), w') /\
    stored w' = stored broken_world /\ outbox w' = outbox broken_world.
Proof.
  refine (missing_key_raises (only_enabled true) as_alice broken_world true
            STATUS _ _ _ _).
  - reflexivity.
  - reflexivity.
  - discriminate.
  - reflexivity.
Defined.

(** X15: every timeline entry a request adds carries the [_id] and the login of
    the user who sent the request; the clock is read once per entry, and the
    timestamps of the entries are these readings, in order. *)
Theorem entries_authored_and_timed p e w c w' :
  PUT p e w = (Ok c, w') ->
  exists added,
    timeline (stored w') = timeline (stored w) ++ added /\
    Forall (fun x => option_map u_id (user e) = Some (e_userId x) /\
                     option_map u_login (user e) = Some (e_userLogin x)) added /\
    map e_timestamp added = readings e (ticks w) (length added) /\
    ticks w' = ticks w + length added.
Proof. apply PUT_ok_entries. Qed.

Lemma entries_authored_and_timed_witness :
  exists added,
    timeline (stored (after enable_and_request as_alice start))
      = timeline (stored start) ++ added /\
    Forall (fun x => option_map u_id (user as_alice) = Some (e_userId x) /\
                     option_map u_login (user as_alice) = Some (e_userLogin x))
      added /\
    map e_timestamp added = readings as_alice (ticks start) (length added) /\
    ticks (after enable_and_request as_alice start)
      = ticks start + length added.
Proof.
  refine (entries_authored_and_timed enable_and_request as_alice start
            (current (stored (after enable_and_request as_alice start)))
            (after enable_and_request as_alice start) _).
  vm_compute. reflexivity.
Defined.

(** ** Requests without effect on the folder *)

(** X16, the guard of [_sendMail]: a request for approval from a user who is
    logged in, on a record that names no [enableUserId], goes through like
    any other, and sends no message. *)
Theorem request_without_addressee e w u :
  user e = Some u ->
  c_enabled (current (stored w)) = Some true ->
  c_status (current (stored w)) = Some CONSTRUCTION ->
  c_enableUserId (current (stored w)) = None ->
  exists c w',
    PUT (only_status REQUESTED) e w = (Ok c, w') /\
    c_status c = Some REQUESTED /\
    c_requestUserId c = Some (u_id u) /\
    outbox w' = outbox w.
Proof.
  intros Hu He Hs Ha.
  assert (Hm : mail_ok e (only_status REQUESTED) (stored w)).
  { apply (mail_ok_only_status e _ CONSTRUCTION REQUESTED He Hs);
      [intros _; rewrite Ha; exact I | discriminate]. }
  destruct (PUT_only_status e w u CONSTRUCTION REQUESTED Hu
              (request_permitted _ _ Hs) He Hs Hm)
    as (c & w' & Hrun & _ & _ & Hs' & Heu & Hq & _ & _ & _ & Hout & _).
  cbn in Hq, Hout. rewrite Heu, Ha in Hout. cbn in Hout.
  rewrite app_nil_r in Hout.
  exists c, w'. auto.
Qed.

Lemma request_without_addressee_witness :
  exists c w',
    PUT (only_status REQUESTED) as_bob orphan_world = (Ok c, w') /\
    c_status c = Some REQUESTED /\
    c_requestUserId c = Some (u_id bob) /\
    outbox w' = outbox orphan_world.
Proof.
  refine (request_without_addressee as_bob orphan_world bob _ _ _ _);
    reflexivity.
Defined.

(** X17: while curation is disabled and stays so, a status parameter is stored and
    nothing else happens, whatever the old and the new status: the public
    flag, the access lists, the user ids and the timeline stay as they are
    and no message is sent. *)
Theorem disabled_status_change_is_silent p e w c w' :
  is_enabled (stored w) = false ->
  p_enabled p = None ->
  PUT p e w = (Ok c, w') ->
  c_status c = over_key (p_status p) (c_status (current (stored w))) /\
  c_enableUserId c = c_enableUserId (current (stored w)) /\
  c_requestUserId c = c_requestUserId (current (stored w)) /\
  c_reviewUserId c = c_reviewUserId (current (stored w)) /\
  public (stored w') = public (stored w) /\
  access (stored w') = access (stored w) /\
  timeline (stored w') = timeline (stored w) /\
  outbox w' = outbox w.
Proof.
  intros Hoff Hpe Hrun.
  pose proof (is_enabled_after _ _ _ _ _ Hrun) as Hen.
  destruct (PUT_ok _ _ _ _ _ Hrun)
    as (_ & _ & _ & Hce & Hcs & Heu & Hq & Hv & Hpub & Hacc & Hout).
  destruct (PUT_ok_timeline _ _ _ _ _ Hrun) as (added & Htl & Htext & _).
  rewrite Hpe in Hce. cbn in Hce.
  assert (Hoff' : is_enabled (stored w') = false).
  { rewrite Hen, Hce. exact Hoff. }
  unfold fired in Htext. rewrite Hoff, Hoff', transitions_disabled in *.
  cbn in Heu, Hq, Hv, Hpub, Hacc, Hout.
  destruct added; [|discriminate Htext]. rewrite app_nil_r in Htl, Hout.
  repeat split; assumption.
Qed.

Lemma disabled_status_change_is_silent_witness :
  c_status (current (stored (after (only_status APPROVED) as_alice start)))
    = over_key (p_status (only_status APPROVED))
        (c_status (current (stored start))) /\
  c_enableUserId (current (stored (after (only_status APPROVED) as_alice start)))
    = c_enableUserId (current (stored start)) /\
  c_requestUserId (current (stored (after (only_status APPROVED) as_alice start)))
    = c_requestUserId (current (stored start)) /\
  c_reviewUserId (current (stored (after (only_status APPROVED) as_alice start)))
    = c_reviewUserId (current (stored start)) /\
  public (stored (after (only_status APPROVED) as_alice start))
    = public (stored start) /\
  access (stored (after (only_status APPROVED) as_alice start))
    = access (stored start) /\
  timeline (stored (after (only_status APPROVED) as_alice start))
    = timeline (stored start) /\
  outbox (after (only_status APPROVED) as_alice start) = outbox start.
Proof.
  refine (disabled_status_change_is_silent (only_status APPROVED) as_alice start
            (current (stored (after (only_status APPROVED) as_alice start)))
            (after (only_status APPROVED) as_alice start) _ _ _).
  - reflexivity.
  - reflexivity.
  - vm_compute. reflexivity.
Defined.

(** ** Callers and addressees without a user document *)

(** X18: the routes are public, so a caller may not be logged in.  Such a
    caller's request never fires a row of the table: if it goes through, the
    timeline, the access lists, the public flag and the user ids are as they
    were and no message is sent.  A request for approval on a record with
    curation enabled and under construction passes the authorization check
    and then raises [AttributeError], with nothing saved or sent. *)
Theorem anonymous_request p e w :
  user e = None ->
  (forall c w',
     PUT p e w = (Ok c, w') ->
     timeline (stored w') = timeline (stored w) /\
     access (stored w') = access (stored w) /\
     public (stored w') = public (stored w) /\
     c_enableUserId c = c_enableUserId (current (stored w)) /\
     c_requestUserId c = c_requestUserId (current (stored w)) /\
     c_reviewUserId c = c_reviewUserId (current (stored w)) /\
     outbox w' = outbox w) /\
  (p_enabled p = None ->
   p_status p = Some REQUESTED ->
   c_enabled (current (stored w)) = Some true ->
   c_status (current (stored w)) = Some CONSTRUCTION ->
   exists w',
     PUT p e w = (Raise AttributeError, w') /\
     stored w' = stored w /\ outbox w' = outbox w).
Proof.
  intros Hu. split.
  - intros c w' Hrun.
    pose proof (PUT_ok_current _ _ _ _ _ Hrun) as Hc.
    destruct (PUT_ok_ids _ _ _ _ _ Hrun)
      as [(u & Hsome & _) | (Hf & Heu & Hq & Hv)]; [congruence|].
    destruct (PUT_ok _ _ _ _ _ Hrun)
      as (_ & _ & _ & _ & _ & _ & _ & _ & Hpub & Hacc & Hout).
    destruct (PUT_ok_timeline _ _ _ _ _ Hrun) as (added & Htl & Htext & _).
    rewrite Hf in Htext. unfold fired in Hf. rewrite Hc in Hf.
    destruct (no_row_fired _ _ _ _ Hf) as (H1 & _ & H3 & H4 & H5 & H6).
    rewrite H1, H3, H4, H5, H6 in *. cbn in Hpub, Hacc, Hout.
    destruct added; [|discriminate Htext]. rewrite app_nil_r in Htl, Hout.
    repeat split; assumption.
  - intros Hpe Hps He Hs.
    assert (Hperm : permitted (user e) p (stored w) = true).
    { unfold permitted. rewrite Hpe, Hps, Hs. cbn. apply orb_true_r. }
    destruct (PUT p e w) as [[c|x] w'] eqn:Hrun.
    + exfalso.
      destruct (PUT_ok_users _ _ _ _ _ Hrun) as (_ & _ & Hin).
      apply Hin; [|exact Hu].
      pose proof (PUT_ok_current _ _ _ _ _ Hrun) as Hc.
      pose proof (is_enabled_after _ _ _ _ _ Hrun) as Hen.
      destruct (PUT_ok _ _ _ _ _ Hrun) as (_ & _ & _ & Hce & Hcs & _).
      rewrite Hpe, He in Hce. rewrite Hps in Hcs. cbn in Hce, Hcs.
      rewrite Hce in Hen. cbn in Hen.
      unfold fired. rewrite Hen, Hc, Hcs, Hs.
      unfold is_enabled. rewrite He. cbn. discriminate.
    + destruct (PUT_permitted_raise _ _ _ _ _ Hrun Hperm (or_intror Hpe))
        as (-> & Hst & Hout).
      exists w'. auto.
Qed.

Lemma anonymous_request_witness :
  exists w',
    PUT (only_status REQUESTED) as_anonymous enabled_world
      = (Raise AttributeError, w') /\
    stored w' = stored enabled_world /\ outbox w' = outbox enabled_world.
Proof.
  refine (proj2 (anonymous_request (only_status REQUESTED) as_anonymous
                   enabled_world _) _ _ _ _); reflexivity.
Defined.

(** X19: [_getEmail] loads the addressee's user document to read its address.
    When the user who enabled curation has no document any more, a request
    for approval from a user who is logged in raises [AttributeError]:
    nothing is saved, the record stays under construction and no message is
    sent. *)
Theorem request_with_missing_addressee e w u a :
  user e = Some u ->
  c_enabled (current (stored w)) = Some true ->
  c_status (current (stored w)) = Some CONSTRUCTION ->
  c_enableUserId (current (stored w)) = Some a ->
  load_user e a = None ->
  exists w',
    PUT (only_status REQUESTED) e w = (Raise AttributeError, w') /\
    stored w' = stored w /\ outbox w' = outbox w.
Proof.
  intros Hu He Hs Ha Hload.
  destruct (PUT (only_status REQUESTED) e w) as [[c|x] w'] eqn:Hrun.
  - exfalso.
    destruct (PUT_ok_users _ _ _ _ _ Hrun) as (Hrq & _).
    pose proof (is_enabled_after _ _ _ _ _ Hrun) as Hen.
    destruct (PUT_ok _ _ _ _ _ Hrun) as (_ & _ & _ & Hce & Hcs & Heu & _).
    cbn in Hce, Hcs. rewrite He in Hce. rewrite Hce in Hen. cbn in Hen.
    assert (Hold : is_enabled (stored w) = true)
      by (unfold is_enabled; now rewrite He).
    rewrite Hen, Hold in Heu. cbn in Heu.
    rewrite Hen, Hs, Hcs, Heu, Ha in Hrq. cbn in Hrq.
    apply (Hrq eq_refl). exact Hload.
  - destruct (PUT_permitted_raise _ _ _ _ _ Hrun (request_permitted _ _ Hs)
                (or_intror eq_refl)) as (-> & Hst & Hout).
    exists w'. auto.
Qed.

Lemma request_with_missing_addressee_witness :
  exists w',
    PUT (only_status REQUESTED) as_bob_alone enabled_world
      = (Raise AttributeError, w') /\
    stored w' = stored enabled_world /\ outbox w' = outbox enabled_world.
Proof.
  refine (request_with_missing_addressee as_bob_alone enabled_world bob
            (u_id alice) _ _ _ _ _); reflexivity.
Defined.
